(** * pretrain_t5.py: rank topology, batch decoding, forward step, model setup

    A shallow embedding of [pretrain_t5.py].  Python lists are Rocq lists,
    ranks and int64 tensor entries are [Z], dictionaries keyed by strings are
    [gmap string _], and a Python exception is the [Raise] branch of
    [result]. *)

From Stdlib Require Import ZArith QArith.
From stdpp Require Import base option list strings gmap.

Local Open Scope string_scope.
Local Open Scope Z_scope.

(** ** Exceptions and results *)

(** The exceptions the modelled code can raise.  [ValueError],
    [IndexError], [KeyError], [StopIteration], [ZeroDivisionError] and
    [UnboundLocalError] are Python's own; [ShapeError] and
    [DegenerateBatchError] are the typed failures of the collaborators that
    are described by the specification only. *)
Inductive Exn : Type :=
  | IndexError
  | KeyError (key : string)
  | StopIteration
  | ValueError (msg : string)
  | ZeroDivisionError
  | UnboundLocalError (name : string)
  | ShapeError
  | DegenerateBatchError.

Inductive result (A : Type) : Type :=
  | Ok (a : A)
  | Raise (e : Exn).

Arguments Ok {A} a.
Arguments Raise {A} e.

#[global] Instance result_ret : MRet result := fun A a => Ok a.
#[global] Instance result_bind : MBind result := fun A B f r =>
  match r with
  | Ok a => f a
  | Raise e => Raise e
  end.
#[global] Instance result_fmap : FMap result := fun A B f r =>
  match r with
  | Ok a => Ok (f a)
  | Raise e => Raise e
  end.

(** ** Python sequence indexing *)

(** [l[i]]: a negative index counts from the end, and an index outside
    [-len(l) .. len(l)-1] raises [IndexError]. *)
Definition py_index {A : Type} (l : list A) (i : Z) : result A :=
  let n := Z.of_nat (length l) in
  let k := if i <? 0 then i + n else i in
  if (k <? 0) || (n <=? k) then Raise IndexError
  else match l !! Z.to_nat k with
       | Some a => Ok a
       | None => Raise IndexError
       end.

(** ** Rank topology *)

Module RankTopology.

(** [t5_embedding_ranks(pp_ranks)] *)
Definition t5_embedding_ranks (pp_ranks : list Z) : result (list Z) :=
  first_rank ← py_index pp_ranks 0;
  last_rank ← py_index pp_ranks (-1);
  if Nat.eqb (length pp_ranks) 1 then
    mret [first_rank]
  else
    mret [first_rank; last_rank].

(** [t5_position_embedding_ranks(pp_ranks)] *)
Definition t5_position_embedding_ranks (pp_ranks : list Z) : result (list Z) :=
  first_rank ← py_index pp_ranks 0;
  mret [first_rank].

(** The set of ranks a returned list stands for. *)
Definition rank_set (ranks : list Z) : gset Z := list_to_set ranks.

End RankTopology.

(** ** Tensors *)

(** A batch of integer sequences: the outer list is the batch dimension.
    [broadcast_data] is called with [torch.int64], so every tensor of the
    broadcast record holds int64 entries. *)
Abbreviation Tensor := (list (list Z)) (only parsing).

(** A boolean matrix of the same layout, as [tensor < 0.5] produces. *)
Abbreviation BoolTensor := (list (list bool)) (only parsing).

Inductive dtype : Type := int64.

(** [Tensor.long()]: the cast to int64 of a tensor that already is int64. *)
Definition long (t : Tensor) : Tensor := t.

(** One entry of [tensor < 0.5].  PyTorch promotes the int64 entry to the
    default float type before comparing; that conversion is monotone and
    keeps integers integral, so the comparison is the exact one of the
    integer against one half. *)
Definition lt_half (v : Z) : bool :=
  match (inject_Z v ?= 1 # 2)%Q with
  | Lt => true
  | _ => false
  end.

(** [tensor < 0.5], entry by entry. *)
Definition tensor_lt_half (t : Tensor) : BoolTensor := map (map lt_half) t.

(** [d[k]] on a dictionary. *)
Definition getitem {V : Type} (d : gmap string V) (k : string) : result V :=
  match d !! k with
  | Some v => Ok v
  | None => Raise (KeyError k)
  end.

(** [a // b] on Python integers. *)
Definition py_floordiv (a b : Z) : result Z :=
  if b =? 0 then Raise ZeroDivisionError else Ok (a / b).

(** ** Arguments, configuration and model objects *)

(** The fields of [get_args()] that [pretrain_t5.py] reads. *)
Record Args : Type := {
  use_legacy_models : bool;
  encoder_num_layers : Z;
  pipeline_model_parallel_size : Z;
  transformer_impl : string;
  padded_vocab_size : Z;
  max_position_embeddings : Z;
  fp16_lm_cross_entropy : bool;
  untie_embeddings_and_output_weights : bool;
  position_embedding_type : string;
  rotary_percent : Q;
  relative_attention_num_buckets : Z;
  relative_attention_max_distance : Z
}.

(** The fields of the transformer configuration that the file reads or
    writes. *)
Record TransformerConfig : Type := {
  num_layers : Z;
  config_pipeline_model_parallel_size : Z
}.

(** [config.num_layers = n] on a copy of the configuration. *)
Definition set_num_layers (n : Z) (c : TransformerConfig) : TransformerConfig :=
  {| num_layers := n;
     config_pipeline_model_parallel_size := config_pipeline_model_parallel_size c |}.

Definition deepcopy (c : TransformerConfig) : TransformerConfig := c.

(** What each block-spec helper was asked to build. *)
Inductive BlockSpec : Type :=
  | get_t5_encoder_with_local_block_spec (layers : Z)
  | get_t5_decoder_with_local_block_spec (layers : Z)
  | get_t5_encoder_with_transformer_engine_block_spec (layers : Z)
  | get_t5_decoder_with_transformer_engine_block_spec (layers : Z).

(** Keyword arguments of [megatron.legacy.model.T5Model(...)]. *)
Record LegacyT5ModelArgs : Type := {
  legacy_config : TransformerConfig;
  legacy_num_tokentypes : Z;
  legacy_parallel_output : bool;
  legacy_pre_process : bool;
  legacy_post_process : bool;
  legacy_add_encoder : bool;
  legacy_add_decoder : bool
}.

(** Keyword arguments of [T5Model(...)]. *)
Record T5ModelArgs : Type := {
  t5_config : TransformerConfig;
  t5_encoder_config : TransformerConfig;
  t5_transformer_encoder_layer_spec : BlockSpec;
  t5_transformer_decoder_layer_spec : BlockSpec;
  t5_vocab_size : Z;
  t5_max_sequence_length : Z;
  t5_pre_process : bool;
  t5_post_process : bool;
  t5_fp16_lm_cross_entropy : bool;
  t5_parallel_output : bool;
  t5_share_embeddings_and_output_weights : bool;
  t5_position_embedding_type : string;
  t5_rotary_percent : Q;
  t5_relative_attention_num_buckets : Z;
  t5_relative_attention_max_distance : Z;
  t5_add_encoder : bool;
  t5_add_decoder : bool
}.

(** A constructed model object, identified by the constructor call that
    made it. *)
Inductive BuiltModel : Type :=
  | LegacyT5Model (kw : LegacyT5ModelArgs)
  | T5Model (kw : T5ModelArgs).

(** ** External collaborators *)

(** Everything [pretrain_t5.py] imports and calls but does not define. *)
Class Collaborators : Type := {
  (** a record yielded by the data iterator *)
  Sample : Type;
  (** an entry of a float tensor, and [Tensor.float()] on one int64 entry *)
  Float : Type;
  float_of_int64 : Z → Float;
  (** an attention mask as the mask builder returns it *)
  Mask : Type;
  (** the model's output tensor, and what [loss_func] returns *)
  Output : Type;
  Loss : Type;
  (** [tensor_parallel.broadcast_data(keys, data, datatype)] *)
  broadcast_data :
    list string → option Sample → dtype → result (gmap string Tensor);
  (** [T5MaskedWordPieceDataset.config_attention_mask(tokens_enc,
      tokens_dec, enc_mask, dec_mask, use_local)] *)
  config_attention_mask :
    Tensor → Tensor → BoolTensor → BoolTensor → bool →
    result (Mask * Mask * Mask);
  (** [pretrain_gpt.loss_func(loss_mask, output_tensor)] *)
  loss_func : list (list Float) → Output → result Loss;
  (** [core_transformer_config_from_args(args)] *)
  core_transformer_config_from_args : Args → TransformerConfig
}.

(** [Tensor.float()] *)
Definition float {collab : Collaborators} (t : Tensor) : list (list Float) :=
  map (map float_of_int64) t.

(** [functools.partial(f, a)] *)
Definition partial {A B C : Type} (f : A → B → C) (a : A) : B → C :=
  fun b => f a b.

(** ** The process state and the monad of effects *)

Inductive Event : Type :=
  | TimerStart (name : string) (log_level : option Z)
  | TimerStop (name : string)
  | PrintRank0 (msg : string).

(** [iterators] maps each live iterator object to the records it has still
    to yield (an object with no entry is exhausted); [events] lists the
    timer and logging calls made so far, oldest first. *)
Record World {collab : Collaborators} : Type := {
  iterators : gmap nat (list Sample);
  events : list Event
}.

(** A computation reads and updates the process state and either returns
    or raises; the state reached when an exception is raised is kept. *)
Definition M {collab : Collaborators} (A : Type) : Type := World → result A * World.

#[global] Instance M_ret {collab : Collaborators} : MRet M := fun A a w => (Ok a, w).
#[global] Instance M_bind {collab : Collaborators} : MBind M := fun A B f m w =>
  match m w with
  | (Ok a, w') => f a w'
  | (Raise e, w') => (Raise e, w')
  end.

Definition raise {collab : Collaborators} {A : Type} (e : Exn) : M A :=
  fun w => (Raise e, w).

(** Run a computation that has no effect on the process state. *)
Definition lift {collab : Collaborators} {A : Type} (r : result A) : M A :=
  fun w => (r, w).

Definition emit {collab : Collaborators} (ev : Event) : M unit :=
  fun w => (Ok tt, {| iterators := iterators w; events := events w ++ [ev] |}).

(** [next(it)] *)
Definition next {collab : Collaborators} (it : nat) : M Sample :=
  fun w =>
    match default [] (iterators w !! it) with
    | [] => (Raise StopIteration, w)
    | x :: rest =>
        (Ok x, {| iterators := <[it := rest]> (iterators w); events := events w |})
    end.

(** [timers(name, log_level=...).start()], [timers(name).stop()] and
    [print_rank_0(msg)] *)
Definition timers_start {collab : Collaborators} (name : string) (log_level : option Z) : M unit :=
  emit (TimerStart name log_level).
Definition timers_stop {collab : Collaborators} (name : string) : M unit :=
  emit (TimerStop name).
Definition print_rank_0 {collab : Collaborators} (msg : string) : M unit :=
  emit (PrintRank0 msg).

(** ** The training entry points *)

Section Pretrain.
Context {collab : Collaborators}.

(** What [get_batch] returns: (tokens_enc, tokens_dec, loss_mask, labels,
    enc_mask, dec_mask, enc_dec_mask). *)
Definition Batch : Type :=
  Tensor * Tensor * list (list Float) * Tensor * Mask * Mask * Mask.

(** A model handle: [model(tokens_enc, tokens_dec, enc_mask, dec_mask,
    enc_dec_mask, lm_labels=lm_labels)]. *)
Definition ModelHandle : Type :=
  Tensor → Tensor → Mask → Mask → Mask → Tensor → M Output.

(** [model_provider(pre_process, post_process, add_encoder, add_decoder)];
    [args] is what [get_args()] returns. *)
Definition model_provider (args : Args)
    (pre_process post_process add_encoder add_decoder : bool) : M BuiltModel :=
  let config := core_transformer_config_from_args args in
  if use_legacy_models args then
    let model := LegacyT5Model {|
      legacy_config := config;
      legacy_num_tokentypes := 0;
      legacy_parallel_output := true;
      legacy_pre_process := pre_process;
      legacy_post_process := post_process;
      legacy_add_encoder := add_encoder;
      legacy_add_decoder := add_decoder |} in
    mret model
  else
    let encoder_config := set_num_layers (encoder_num_layers args) (deepcopy config) in
    if 1 <? pipeline_model_parallel_size args then
      raise (ValueError "Pipeline parallelism is not supported for T5.")
    else
      encoder_layers_per_pipeline ←
        lift (py_floordiv (num_layers encoder_config)
                          (config_pipeline_model_parallel_size encoder_config));
      decoder_layers_per_pipeline ←
        lift (py_floordiv (num_layers config)
                          (config_pipeline_model_parallel_size config));
      let block_specs :=
        if String.eqb (transformer_impl args) "local" then
          Some (get_t5_encoder_with_local_block_spec encoder_layers_per_pipeline,
                get_t5_decoder_with_local_block_spec decoder_layers_per_pipeline)
        else if String.eqb (transformer_impl args) "transformer_engine" then
          Some (get_t5_encoder_with_transformer_engine_block_spec
                  encoder_layers_per_pipeline,
                get_t5_decoder_with_transformer_engine_block_spec
                  decoder_layers_per_pipeline)
        else None in
      print_rank_0 "building T5 model ...";;
      '(en_block_spec, de_block_spec) ←
        match block_specs with
        | Some specs => mret specs
        | None => raise (UnboundLocalError "en_block_spec")
        end;
      mret (T5Model {|
        t5_config := config;
        t5_encoder_config := encoder_config;
        t5_transformer_encoder_layer_spec := en_block_spec;
        t5_transformer_decoder_layer_spec := de_block_spec;
        t5_vocab_size := padded_vocab_size args;
        t5_max_sequence_length := max_position_embeddings args;
        t5_pre_process := pre_process;
        t5_post_process := post_process;
        t5_fp16_lm_cross_entropy := fp16_lm_cross_entropy args;
        t5_parallel_output := true;
        t5_share_embeddings_and_output_weights :=
          negb (untie_embeddings_and_output_weights args);
        t5_position_embedding_type := position_embedding_type args;
        t5_rotary_percent := rotary_percent args;
        t5_relative_attention_num_buckets := relative_attention_num_buckets args;
        t5_relative_attention_max_distance := relative_attention_max_distance args;
        t5_add_encoder := add_encoder;
        t5_add_decoder := add_decoder |}).

(** [get_batch(data_iterator, use_local)] *)
Definition get_batch (data_iterator : option nat) (use_local : bool) : M Batch :=
  let keys := ["text_enc"; "text_dec"; "labels"; "loss_mask"; "enc_mask"; "dec_mask"] in
  let datatype := int64 in
  data ← match data_iterator with
         | Some it => x ← next it; mret (Some x)
         | None => mret None
         end;
  data_b ← lift (broadcast_data keys data datatype);
  tokens_enc ← lift (long <$> getitem data_b "text_enc");
  tokens_dec ← lift (long <$> getitem data_b "text_dec");
  labels ← lift (long <$> getitem data_b "labels");
  loss_mask ← lift (float <$> getitem data_b "loss_mask");
  enc_mask ← lift (tensor_lt_half <$> getitem data_b "enc_mask");
  dec_mask ← lift (tensor_lt_half <$> getitem data_b "dec_mask");
  '(enc_mask, dec_mask, enc_dec_mask) ←
    lift (config_attention_mask tokens_enc tokens_dec enc_mask dec_mask use_local);
  mret (tokens_enc, tokens_dec, loss_mask, labels, enc_mask, dec_mask, enc_dec_mask).

(** [forward_step(data_iterator, model)]; [args] is what [get_args()]
    returns. *)
Definition forward_step (args : Args) (data_iterator : option nat) (model : ModelHandle)
    : M (Output * (Output → result Loss)) :=
  timers_start "batch generator" (Some 2);;
  let use_local := String.eqb (transformer_impl args) "local" in
  '(tokens_enc, tokens_dec, loss_mask, lm_labels, enc_mask, dec_mask, enc_dec_mask) ←
    get_batch data_iterator use_local;
  timers_stop "batch generator";;
  output_tensor ← model tokens_enc tokens_dec enc_mask dec_mask enc_dec_mask lm_labels;
  mret (output_tensor, partial loss_func loss_mask).

End Pretrain.

(** ** Collaborators described by the specification *)

(** The arithmetic the loss computation needs from the float type. *)
Class FloatOps (F : Type) : Type := {
  f_zero : F;
  f_add : F → F → F;
  f_mul : F → F → F;
  f_div : F → F → F;
  f_eqb : F → F → bool;
  f_of_int64 : Z → F
}.

(** The three facts about zero that every float format satisfies: the
    integer zero converts to zero, zero plus zero is zero, and zero
    compares equal to itself. *)
Class FloatLaws (F : Type) `{FloatOps F} : Prop := {
  f_of_int64_0 : f_of_int64 0 = f_zero;
  f_add_0_0 : f_add f_zero f_zero = f_zero;
  f_eqb_0_0 : f_eqb f_zero f_zero = true
}.

Module SpecModel.

(** An attention mask, [true] where the query position may attend to the
    key position: indexed [batch][query][key] for the local backend, and
    [batch][0][query][key], with a singleton head dimension inserted, for
    the other backend. *)
Inductive AttnMask : Type :=
  | Mask3 (cells : list (list (list bool)))
  | Mask4 (cells : list (list (list (list bool)))).

(** The entry of a mask for batch element [b], query [i] and key [j]. *)
Definition mask_at (m : AttnMask) (b i j : nat) : option bool :=
  match m with
  | Mask3 cells => row ← cells !! b; r ← row !! i; r !! j
  | Mask4 cells => heads ← cells !! b; row ← heads !! 0%nat; r ← row !! i; r !! j
  end.

(** Query validity combined with key validity. *)
Definition outer_and (q k : list bool) : list (list bool) :=
  map (fun qi => map (fun kj => qi && kj) k) q.

(** Keep only the keys [j <= i]. *)
Definition causal (m : list (list bool)) : list (list bool) :=
  imap (fun i row => imap (fun j c => c && (j <=? i)%nat) row) m.

Definition for_backend (use_local : bool) (cells : list (list (list bool))) : AttnMask :=
  if use_local then Mask3 cells else Mask4 (map (fun m => [m]) cells).

(** Modelled from the spec: the attention-mask builder
    [T5MaskedWordPieceDataset.config_attention_mask], which pretrain_t5.py
    imports from megatron.core.datasets.t5_dataset.  The encoder self-mask
    lets (i,j) attend iff both are valid encoder positions; the decoder
    self-mask iff both are valid decoder positions and j <= i; the
    cross-mask iff decoder position i and encoder position j are valid.
    For the non-local backend a singleton dimension is inserted.  It fails
    only when the batch dimensions of the two padding inputs differ. *)
Definition config_attention_mask (tokens_enc tokens_dec : Tensor)
    (enc_mask dec_mask : BoolTensor) (use_local : bool)
    : result (AttnMask * AttnMask * AttnMask) :=
  if Nat.eqb (length enc_mask) (length dec_mask) then
    Ok (for_backend use_local (map (fun e => outer_and e e) enc_mask),
        for_backend use_local (map (fun d => causal (outer_and d d)) dec_mask),
        for_backend use_local (zip_with outer_and dec_mask enc_mask))
  else Raise ShapeError.

Section Loss.
Context {F : Type} `{FloatOps F}.

Definition f_sum (l : list F) : F := foldr f_add f_zero l.

(** Modelled from the spec: the loss function [pretrain_gpt.loss_func],
    which pretrain_t5.py imports and binds the loss weights into.  The
    model, called with the labels, returns the per-position cross entropy;
    the loss is its weighted mean, normalised by the sum of the weights
    across the data-parallel group ([all_reduce_sum] of the local sum).  A
    microbatch whose weights sum to zero fails with DegenerateBatchError
    instead of dividing by zero. *)
Definition loss_func (all_reduce_sum : F → F)
    (loss_mask : list (list F)) (output_tensor : list (list F)) : result F :=
  let weights := concat loss_mask in
  let total := f_sum weights in
  if f_eqb total f_zero then Raise DegenerateBatchError
  else Ok (f_div (f_sum (zip_with f_mul (concat output_tensor) weights))
                 (all_reduce_sum total)).

End Loss.

(** Modelled from the spec: the group broadcast primitive
    [tensor_parallel.broadcast_data(keys, record, dtype)], which returns
    the decoded record, with the fields named by [keys], on every rank of
    the group: the rank that owns a record sends it, a rank without one
    receives the record [sent] by the owner.  A record without one of the
    keys fails. *)
Definition broadcast_data (sent : gmap string Tensor) (keys : list string)
    (data : option (gmap string Tensor)) (datatype : dtype)
    : result (gmap string Tensor) :=
  let record := default sent data in
  foldr (fun k acc => d ← acc; t ← getitem record k; mret (<[k := t]> d))
        (Ok ∅) keys.

End SpecModel.

(** The collaborators as the specification describes them, over a float
    type [F]; [sent] and [all_reduce_sum] stand for what the other ranks
    contribute, and [from_args] for the configuration builder. *)
Definition spec_collaborators (F : Type) `{FloatOps F}
    (sent : gmap string Tensor) (all_reduce_sum : F → F)
    (from_args : Args → TransformerConfig) : Collaborators := {|
  Sample := gmap string Tensor;
  Float := F;
  float_of_int64 := f_of_int64;
  Mask := SpecModel.AttnMask;
  Output := list (list F);
  Loss := F;
  broadcast_data := SpecModel.broadcast_data sent;
  config_attention_mask := SpecModel.config_attention_mask;
  loss_func := SpecModel.loss_func all_reduce_sum;
  core_transformer_config_from_args := from_args
|}.

(** ** Vocabulary of the statements *)

(** The broadcast record [data_b] holds the six named fields. *)
Definition has_fields (data_b : gmap string Tensor)
    (text_enc text_dec labels loss_mask enc_mask dec_mask : Tensor) : Prop :=
  data_b !! "text_enc" = Some text_enc ∧
  data_b !! "text_dec" = Some text_dec ∧
  data_b !! "labels" = Some labels ∧
  data_b !! "loss_mask" = Some loss_mask ∧
  data_b !! "enc_mask" = Some enc_mask ∧
  data_b !! "dec_mask" = Some dec_mask.

(** The record handed to the broadcast and the state left behind when
    [get_batch] reads [data_iterator] in state [w]: nothing on a rank
    whose iterator is [None], the next record of the iterator otherwise. *)
Definition fetches {collab : Collaborators} (data_iterator : option nat) (w : World)
    (data : option Sample) (w' : World) : Prop :=
  match data_iterator with
  | None => data = None ∧ w' = w
  | Some it =>
      ∃ x rest, iterators w !! it = Some (x :: rest) ∧ data = Some x ∧
        w' = {| iterators := <[it := rest]> (iterators w); events := events w |}
  end.

Definition log {collab : Collaborators} (ev : Event) (w : World) : World :=
  {| iterators := iterators w; events := events w ++ [ev] |}.

(** The keys [get_batch] asks the broadcast for. *)
Definition batch_keys : list string :=
  ["text_enc"; "text_dec"; "labels"; "loss_mask"; "enc_mask"; "dec_mask"].

(** The entry of a matrix batch at batch element [b], position [i]. *)
Definition entry {A : Type} (t : list (list A)) (b i : nat) : option A :=
  row ← t !! b; row !! i.

(** The batch dimension of a tensor, and whether a list of tensors shares
    one. *)
Definition batch_dim {A : Type} (t : list (list A)) : nat := length t.

Definition batch_dims_agree (fields : list Tensor) : bool :=
  match fields with
  | [] => true
  | t :: ts => forallb (fun u => Nat.eqb (batch_dim u) (batch_dim t)) ts
  end.

(** Every weight of a loss-weight field is zero. *)
Definition all_zero (loss_mask : Tensor) : Prop :=
  Forall (Forall (fun v => v = 0)) loss_mask.

(** ** A concrete instance, on which the definitions can be run *)

Module Example.

(** Exact rational arithmetic as the float type. *)
#[export] Instance Q_float_ops : FloatOps Q := {|
  f_zero := 0%Q;
  f_add := Qplus;
  f_mul := Qmult;
  f_div := Qdiv;
  f_eqb := Qeq_bool;
  f_of_int64 := inject_Z
|}.

(** The configuration builder copies the two fields over; 12 layers. *)
Definition from_args (args : Args) : TransformerConfig :=
  {| num_layers := 12;
     config_pipeline_model_parallel_size := pipeline_model_parallel_size args |}.

Definition record (text_enc text_dec labels loss_mask enc_mask dec_mask : Tensor)
    : gmap string Tensor :=
  <["text_enc" := text_enc]> (<["text_dec" := text_dec]> (<["labels" := labels]>
  (<["loss_mask" := loss_mask]> (<["enc_mask" := enc_mask]>
  (<["dec_mask" := dec_mask]> ∅))))).

(** One sequence pair: three encoder positions, the last one padding; two
    decoder positions, the last one padding. *)
Definition text_enc : Tensor := [[101; 7; 0]].
Definition text_dec : Tensor := [[102; 0]].
Definition labels : Tensor := [[7; 0]].
Definition loss_mask : Tensor := [[1; 0]].
Definition enc_mask : Tensor := [[0; 0; 1]].
Definition dec_mask : Tensor := [[0; 1]].

Definition sample : gmap string Tensor :=
  record text_enc text_dec labels loss_mask enc_mask dec_mask.

(** The same pair with every loss weight zero. *)
Definition zero_weight_sample : gmap string Tensor :=
  record text_enc text_dec labels [[0; 0]] enc_mask dec_mask.

(** A record whose labels and loss weights have batch dimension 2 while
    the other four fields have batch dimension 1. *)
Definition ragged_labels : Tensor := [[7; 0]; [9; 9]].
Definition ragged_loss_mask : Tensor := [[1; 0]; [1; 1]].
Definition ragged_sample : gmap string Tensor :=
  record text_enc text_dec ragged_labels ragged_loss_mask enc_mask dec_mask.

(** A rank without a record of its own receives [sample]; this rank is the
    whole data-parallel group. *)
#[export] Instance collaborators : Collaborators :=
  spec_collaborators Q sample (fun total => total) from_args.

(** A process whose iterator number 0 is about to yield [x]. *)
Definition world_with (x : gmap string Tensor) : World :=
  {| iterators := {[ 0%nat := [x] ]}; events := [] |}.

(** The masks of [sample] for the local backend. *)
Definition enc_self : SpecModel.AttnMask :=
  SpecModel.Mask3 [[[true; true; false]; [true; true; false]; [false; false; false]]].
Definition dec_self : SpecModel.AttnMask :=
  SpecModel.Mask3 [[[true; false]; [false; false]]].
Definition enc_dec : SpecModel.AttnMask :=
  SpecModel.Mask3 [[[true; true; false]; [false; false; false]]].

(** The state after iterator number 0 has yielded its only record. *)
Definition fetched (w : World) : World :=
  {| iterators := <[0%nat := []]> (iterators w); events := events w |}.

(** The state after [forward_step] has read that record. *)
Definition stepped (w : World) : World :=
  log (TimerStop "batch generator")
    (fetched (log (TimerStart "batch generator" (Some 2)) w)).

(** A model that returns a fixed loss per decoder position. *)
Definition model : ModelHandle :=
  fun tokens_enc tokens_dec enc_mask dec_mask enc_dec_mask lm_labels =>
    mret (map (map (fun _ => 1 # 4)%Q) lm_labels).

Definition local_args : Args := {|
  use_legacy_models := false;
  encoder_num_layers := 12;
  pipeline_model_parallel_size := 1;
  transformer_impl := "local";
  padded_vocab_size := 30592;
  max_position_embeddings := 512;
  fp16_lm_cross_entropy := false;
  untie_embeddings_and_output_weights := false;
  position_embedding_type := "learned_absolute";
  rotary_percent := 1%Q;
  relative_attention_num_buckets := 32;
  relative_attention_max_distance := 128
|}.

(** The same arguments with two pipeline stages. *)
Definition with_two_stages (legacy : bool) : Args := {|
  use_legacy_models := legacy;
  encoder_num_layers := encoder_num_layers local_args;
  pipeline_model_parallel_size := 2;
  transformer_impl := transformer_impl local_args;
  padded_vocab_size := padded_vocab_size local_args;
  max_position_embeddings := max_position_embeddings local_args;
  fp16_lm_cross_entropy := fp16_lm_cross_entropy local_args;
  untie_embeddings_and_output_weights := untie_embeddings_and_output_weights local_args;
  position_embedding_type := position_embedding_type local_args;
  rotary_percent := rotary_percent local_args;
  relative_attention_num_buckets := relative_attention_num_buckets local_args;
  relative_attention_max_distance := relative_attention_max_distance local_args
|}.

End Example.

(** ** Dataset construction *)

(** The number of layers a block-spec helper was asked for. *)
Definition block_spec_layers (spec : BlockSpec) : Z :=
  match spec with
  | get_t5_encoder_with_local_block_spec layers => layers
  | get_t5_decoder_with_local_block_spec layers => layers
  | get_t5_encoder_with_transformer_engine_block_spec layers => layers
  | get_t5_decoder_with_transformer_engine_block_spec layers => layers
  end.

(** [a, b, c = values]: a list of any other length than three cannot be
    unpacked (the messages are CPython's for a list, up to 3.13). *)
Definition unpack3 {A : Type} (values : list A) : result (A * A * A) :=
  match values with
  | [] => Raise (ValueError "not enough values to unpack (expected 3, got 0)")
  | [_] => Raise (ValueError "not enough values to unpack (expected 3, got 1)")
  | [_; _] => Raise (ValueError "not enough values to unpack (expected 3, got 2)")
  | [a; b; c] => Ok (a, b, c)
  | _ :: _ :: _ :: _ :: _ => Raise (ValueError "too many values to unpack (expected 3)")
  end.

Module Datasets.

(** The fields of [get_args()] that [train_valid_test_datasets_provider]
    reads. *)
Record DataArgs : Type := {
  seed : Z;
  encoder_seq_length : Z;
  decoder_seq_length : Z;
  data_path : option (list string);
  train_data_path : option (list string);
  valid_data_path : option (list string);
  test_data_path : option (list string);
  split : option string;
  data_cache_path : option string;
  mask_prob : Q;
  short_seq_prob : Q;
  mid_level_dataset_surplus : Q
}.

(** Keyword arguments of [T5MaskedWordPieceDatasetConfig(...)]. *)
Record T5MaskedWordPieceDatasetConfig {Tokenizer Blend : Type} : Type := {
  ds_random_seed : Z;
  ds_sequence_length : Z;
  ds_sequence_length_decoder : Z;
  ds_blend : option Blend;
  ds_blend_per_split : list (option Blend);
  ds_split : option string;
  ds_path_to_cache : option string;
  ds_tokenizer : Tokenizer;
  ds_masking_probability : Q;
  ds_short_sequence_probability : Q;
  ds_masking_max_ngram : Z;
  ds_masking_do_full_word : bool;
  ds_masking_do_permutation : bool;
  ds_masking_use_longer_ngrams : bool;
  ds_masking_use_geometric_distribution : bool;
  ds_mid_level_dataset_surplus : Q
}.
Arguments T5MaskedWordPieceDatasetConfig : clear implicits.

(** What [train_valid_test_datasets_provider] imports and calls. *)
Class DatasetCollaborators : Type := {
  Tokenizer : Type;
  Blend : Type;
  Dataset : Type;
  (** [get_tokenizer()] *)
  get_tokenizer : Tokenizer;
  (** [get_blend_from_list(paths)] *)
  get_blend_from_list : option (list string) → option Blend;
  (** [BlendedMegatronDatasetBuilder(T5MaskedWordPieceDataset, sizes,
      is_built_on_rank, config).build()]; [is_built_on_rank] is given the
      rank [mpu.get_tensor_model_parallel_rank()] returns when it is
      called. *)
  build_datasets :
    list Z → (Z → bool) → T5MaskedWordPieceDatasetConfig Tokenizer Blend →
    result (list Dataset)
}.

Section Provider.
Context {collab : Collaborators} {datasets : DatasetCollaborators}.

(** [train_valid_test_datasets_provider(train_val_test_num_samples)];
    [args] is what [get_args()] returns. *)
Definition train_valid_test_datasets_provider (args : DataArgs)
    (train_val_test_num_samples : list Z) : M (Dataset * Dataset * Dataset) :=
  let tokenizer := get_tokenizer in
  let config := {|
    ds_random_seed := seed args;
    ds_sequence_length := encoder_seq_length args;
    ds_sequence_length_decoder := decoder_seq_length args;
    ds_blend := get_blend_from_list (data_path args);
    ds_blend_per_split := [
      get_blend_from_list (train_data_path args);
      get_blend_from_list (valid_data_path args);
      get_blend_from_list (test_data_path args)
    ];
    ds_split := split args;
    ds_path_to_cache := data_cache_path args;
    ds_tokenizer := tokenizer;
    ds_masking_probability := mask_prob args;
    ds_short_sequence_probability := short_seq_prob args;
    ds_masking_max_ngram := 10;
    ds_masking_do_full_word := true;
    ds_masking_do_permutation := false;
    ds_masking_use_longer_ngrams := false;
    ds_masking_use_geometric_distribution := true;
    ds_mid_level_dataset_surplus := mid_level_dataset_surplus args |} in
  print_rank_0 "> building train, validation, and test datasets for T5 ...";;
  built ← lift (build_datasets train_val_test_num_samples
                  (fun tensor_model_parallel_rank => tensor_model_parallel_rank =? 0)
                  config);
  '(train_ds, valid_ds, test_ds) ← lift (unpack3 built);
  print_rank_0 "> finished creating T5 datasets ...";;
  mret (train_ds, valid_ds, test_ds).

End Provider.

End Datasets.

(** ** Vocabulary of the further statements *)

(** The record [data] is broadcast and decoded into [batch]: the broadcast
    yields the six fields and the mask builder returns on them. *)
Definition decodes_to {collab : Collaborators} (data : option Sample)
    (use_local : bool) (batch : Batch) : Prop :=
  ∃ (data_b : gmap string Tensor)
    (text_enc text_dec labels loss_mask enc_mask dec_mask : Tensor)
    (enc_self dec_self enc_dec : Mask),
    broadcast_data batch_keys data int64 = Ok data_b ∧
    has_fields data_b text_enc text_dec labels loss_mask enc_mask dec_mask ∧
    config_attention_mask text_enc text_dec
      (tensor_lt_half enc_mask) (tensor_lt_half dec_mask) use_local
      = Ok (enc_self, dec_self, enc_dec) ∧
    batch = (text_enc, text_dec, float loss_mask, labels, enc_self, dec_self, enc_dec).

(** The state after the iterator [it] has been advanced to [rest]. *)
Definition advanced {collab : Collaborators} (it : nat) (rest : list Sample)
    (w : World) : World :=
  {| iterators := <[it := rest]> (iterators w); events := events w |}.

(** The configuration [train_valid_test_datasets_provider] hands to the
    dataset builder, and the rank test it hands over with it. *)
Definition provider_config {datasets : Datasets.DatasetCollaborators}
    (args : Datasets.DataArgs)
    : Datasets.T5MaskedWordPieceDatasetConfig Datasets.Tokenizer Datasets.Blend := {|
  Datasets.ds_random_seed := Datasets.seed args;
  Datasets.ds_sequence_length := Datasets.encoder_seq_length args;
  Datasets.ds_sequence_length_decoder := Datasets.decoder_seq_length args;
  Datasets.ds_blend := Datasets.get_blend_from_list (Datasets.data_path args);
  Datasets.ds_blend_per_split := [
    Datasets.get_blend_from_list (Datasets.train_data_path args);
    Datasets.get_blend_from_list (Datasets.valid_data_path args);
    Datasets.get_blend_from_list (Datasets.test_data_path args)
  ];
  Datasets.ds_split := Datasets.split args;
  Datasets.ds_path_to_cache := Datasets.data_cache_path args;
  Datasets.ds_tokenizer := Datasets.get_tokenizer;
  Datasets.ds_masking_probability := Datasets.mask_prob args;
  Datasets.ds_short_sequence_probability := Datasets.short_seq_prob args;
  Datasets.ds_masking_max_ngram := 10;
  Datasets.ds_masking_do_full_word := true;
  Datasets.ds_masking_do_permutation := false;
  Datasets.ds_masking_use_longer_ngrams := false;
  Datasets.ds_masking_use_geometric_distribution := true;
  Datasets.ds_mid_level_dataset_surplus := Datasets.mid_level_dataset_surplus args
|}.

Definition on_rank_zero (tensor_model_parallel_rank : Z) : bool :=
  tensor_model_parallel_rank =? 0.

(** ** Further scenarios on the concrete instance *)

Module Scenario.
Import Example.

(** A second record, with both decoder positions valid. *)
Definition second_sample : gmap string Tensor :=
  record [[103; 9; 4]] [[104; 5]] [[9; 5]] [[1; 1]] [[0; 0; 0]] [[0; 0]].

(** Iterator number 0 is about to yield [items], in order. *)
Definition world_of (items : list (gmap string Tensor)) : World :=
  {| iterators := {[ 0%nat := items ]}; events := [] |}.

(** A record that lacks the "labels" field and all later ones. *)
Definition truncated_sample : gmap string Tensor :=
  <["text_enc" := text_enc]> (<["text_dec" := text_dec]> ∅).

(** A model that always fails. *)
Definition failing_model : ModelHandle :=
  fun tokens_enc tokens_dec enc_mask dec_mask enc_dec_mask lm_labels =>
    raise (ValueError "model failure").

(** [local_args] with the backend name replaced. *)
Definition with_impl (impl : string) (pipeline_stages : Z) : Args := {|
  use_legacy_models := false;
  encoder_num_layers := encoder_num_layers local_args;
  pipeline_model_parallel_size := pipeline_stages;
  transformer_impl := impl;
  padded_vocab_size := padded_vocab_size local_args;
  max_position_embeddings := max_position_embeddings local_args;
  fp16_lm_cross_entropy := fp16_lm_cross_entropy local_args;
  untie_embeddings_and_output_weights := untie_embeddings_and_output_weights local_args;
  position_embedding_type := position_embedding_type local_args;
  rotary_percent := rotary_percent local_args;
  relative_attention_num_buckets := relative_attention_num_buckets local_args;
  relative_attention_max_distance := relative_attention_max_distance local_args
|}.

Definition data_args : Datasets.DataArgs := {|
  Datasets.seed := 1234;
  Datasets.encoder_seq_length := 512;
  Datasets.decoder_seq_length := 128;
  Datasets.data_path := Some ["corpus"];
  Datasets.train_data_path := None;
  Datasets.valid_data_path := None;
  Datasets.test_data_path := None;
  Datasets.split := Some "949,50,1";
  Datasets.data_cache_path := None;
  Datasets.mask_prob := (15 # 100)%Q;
  Datasets.short_seq_prob := (1 # 10)%Q;
  Datasets.mid_level_dataset_surplus := (5 # 1000)%Q
|}.

(** A builder that hands back [built] whatever it is asked. *)
Definition datasets_returning (built : result (list string))
    : Datasets.DatasetCollaborators := {|
  Datasets.Tokenizer := unit;
  Datasets.Blend := list string;
  Datasets.Dataset := string;
  Datasets.get_tokenizer := tt;
  Datasets.get_blend_from_list := fun paths => paths;
  Datasets.build_datasets := fun sizes is_built_on_rank config => built
|}.

(** The fields and masks of [second_sample] for the local backend. *)
Definition second_text_enc : Tensor := [[103; 9; 4]].
Definition second_text_dec : Tensor := [[104; 5]].
Definition second_labels : Tensor := [[9; 5]].
Definition second_loss_mask : Tensor := [[1; 1]].
Definition second_enc_self : SpecModel.AttnMask :=
  SpecModel.Mask3 [[[true; true; true]; [true; true; true]; [true; true; true]]].
Definition second_dec_self : SpecModel.AttnMask :=
  SpecModel.Mask3 [[[true; false]; [true; true]]].
Definition second_enc_dec : SpecModel.AttnMask :=
  SpecModel.Mask3 [[[true; true; true]; [true; true; true]]].

(** A record whose two padding indicators differ in batch dimension. *)
Definition ragged_padding_sample : gmap string Tensor :=
  record text_enc text_dec labels loss_mask enc_mask [[0; 1]; [0; 0]].

(** The collaborators of [Example] with a broadcast that hands the record
    over as it is, whatever fields it has. *)
Definition passthrough : Collaborators := {|
  Sample := gmap string Tensor;
  Float := Q;
  float_of_int64 := inject_Z;
  Mask := SpecModel.AttnMask;
  Output := list (list Q);
  Loss := Q;
  broadcast_data := fun keys data datatype => Ok (default ∅ data);
  config_attention_mask := SpecModel.config_attention_mask;
  loss_func := SpecModel.loss_func (fun total => total);
  core_transformer_config_from_args := from_args
|}.

(** With that broadcast, iterator number 0 is about to yield [items]. *)
Definition passthrough_world (items : list (gmap string Tensor))
    : World (collab := passthrough) :=
  {| iterators := {[ 0%nat := items ]}; events := [] |}.

End Scenario.

(** ** Facts about indexing *)

Lemma py_index_0_cons {A : Type} (a : A) (l : list A) :
  py_index (a :: l) 0 = Ok a.
Proof.
  unfold py_index. cbn [length].
  replace (0 <? 0) with false by reflexivity.
  replace (0 <? 0) with false by reflexivity.
  destruct (Z.leb_spec (Z.of_nat (S (length l))) 0) as [H|H]; [lia|].
  reflexivity.
Qed.

Lemma py_index_m1_last {A : Type} (l : list A) (x : A) :
  last l = Some x → py_index l (-1) = Ok x.
Proof.
  intros Hl. unfold py_index.
  assert (Hlen : (0 < length l)%nat).
  { destruct l; [discriminate | cbn; lia]. }
  replace (-1 <? 0) with true by reflexivity.
  destruct (Z.ltb_spec (-1 + Z.of_nat (length l)) 0) as [H|H]; [lia|].
  destruct (Z.leb_spec (Z.of_nat (length l)) (-1 + Z.of_nat (length l))) as [H'|H']; [lia|].
  cbn [orb].
  replace (Z.to_nat (-1 + Z.of_nat (length l))) with (Nat.pred (length l)) by lia.
  rewrite <- last_lookup. by rewrite Hl.
Qed.

Lemma py_index_nil {A : Type} (i : Z) : py_index (@nil A) i = Raise IndexError.
Proof.
  unfold py_index. cbn [length].
  destruct (i <? 0) eqn:Hi.
  - replace (i + Z.of_nat 0) with i by lia. by rewrite Hi.
  - destruct (Z.leb_spec (Z.of_nat 0) i) as [H|H].
    + by rewrite orb_true_r.
    + apply Z.ltb_ge in Hi. cbn in H. lia.
Qed.

Lemma nonempty_first_last {A : Type} (l : list A) :
  l ≠ [] → ∃ a b, l !! 0%nat = Some a ∧ last l = Some b.
Proof.
  intros Hne. destruct l as [|a l]; [done|].
  destruct (last (a :: l)) as [b|] eqn:Hb.
  - by exists a, b.
  - apply last_None in Hb. done.
Qed.

(** ** Rank topology *)

Section RankTopologyFacts.
Import RankTopology.

Lemma rank_set_singleton (a : Z) : rank_set [a] = {[ a ]}.
Proof. unfold rank_set. cbn [list_to_set]. apply union_empty_r_L. Qed.

Lemma rank_set_pair (a b : Z) : rank_set [a; b] = {[ a; b ]}.
Proof. unfold rank_set. cbn [list_to_set]. by rewrite union_empty_r_L. Qed.

Lemma t5_embedding_ranks_cons (a : Z) (l : list Z) (b : Z) :
  last (a :: l) = Some b →
  t5_embedding_ranks (a :: l) =
    Ok (if Nat.eqb (length (a :: l)) 1 then [a] else [a; b]).
Proof.
  intros Hb. unfold t5_embedding_ranks.
  rewrite py_index_0_cons. cbn [mbind result_bind].
  rewrite (py_index_m1_last _ _ Hb). cbn [mbind result_bind].
  by destruct (Nat.eqb (length (a :: l)) 1).
Qed.

Lemma t5_position_embedding_ranks_cons (a : Z) (l : list Z) :
  t5_position_embedding_ranks (a :: l) = Ok [a].
Proof. unfold t5_position_embedding_ranks. by rewrite py_index_0_cons. Qed.

(** C1: on a non-empty pipeline group, [t5_embedding_ranks] returns the
    first rank alone when the group has one element, and the first and the
    last rank otherwise; as a set, {group[0]} and {group[0], group[-1]}. *)
Theorem embedding_ranks_first_and_last (pp_ranks : list Z) :
  pp_ranks ≠ [] →
  ∃ first_rank last_rank ranks,
    py_index pp_ranks 0 = Ok first_rank ∧
    py_index pp_ranks (-1) = Ok last_rank ∧
    t5_embedding_ranks pp_ranks = Ok ranks ∧
    (length pp_ranks = 1%nat →
       ranks = [first_rank] ∧ rank_set ranks = {[ first_rank ]}) ∧
    (length pp_ranks ≠ 1%nat →
       ranks = [first_rank; last_rank] ∧
       rank_set ranks = {[ first_rank; last_rank ]}).
Proof.
  intros Hne.
  destruct (nonempty_first_last pp_ranks Hne) as (a & b & Ha & Hb).
  destruct pp_ranks as [|a' l]; [done|].
  cbn in Ha. injection Ha as ->.
  exists a, b. eexists. split; [apply py_index_0_cons|].
  split; [by apply py_index_m1_last|].
  split; [by apply t5_embedding_ranks_cons|].
  split; intros Hlen.
  - apply Nat.eqb_eq in Hlen as Hlen'. rewrite Hlen'.
    split; [done|]. apply rank_set_singleton.
  - apply Nat.eqb_neq in Hlen as Hlen'. rewrite Hlen'.
    split; [done|]. apply rank_set_pair.
Qed.

(** The group [5,6,7,8] has embedding ranks {5,8}. *)
Lemma embedding_ranks_first_and_last_witness :
  ∃ first_rank last_rank ranks,
    py_index [5; 6; 7; 8] 0 = Ok first_rank ∧
    py_index [5; 6; 7; 8] (-1) = Ok last_rank ∧
    t5_embedding_ranks [5; 6; 7; 8] = Ok ranks ∧
    (length [5; 6; 7; 8] = 1%nat →
       ranks = [first_rank] ∧ rank_set ranks = {[ first_rank ]}) ∧
    (length [5; 6; 7; 8] ≠ 1%nat →
       ranks = [first_rank; last_rank] ∧
       rank_set ranks = {[ first_rank; last_rank ]}).
Proof. apply (embedding_ranks_first_and_last [5; 6; 7; 8]). discriminate. Defined.

Example embedding_ranks_5 : t5_embedding_ranks [5] = Ok [5].
Proof. reflexivity. Qed.

Example embedding_ranks_5_6_7_8 : t5_embedding_ranks [5; 6; 7; 8] = Ok [5; 8].
Proof. reflexivity. Qed.

Example embedding_ranks_empty : t5_embedding_ranks [] = Raise IndexError.
Proof. reflexivity. Qed.

(** C2: on a non-empty pipeline group, [t5_position_embedding_ranks]
    returns exactly the first rank, whatever the length of the group. *)
Theorem position_embedding_ranks_first (pp_ranks : list Z) :
  pp_ranks ≠ [] →
  ∃ first_rank,
    py_index pp_ranks 0 = Ok first_rank ∧
    pp_ranks !! 0%nat = Some first_rank ∧
    t5_position_embedding_ranks pp_ranks = Ok [first_rank] ∧
    rank_set [first_rank] = {[ first_rank ]}.
Proof.
  intros Hne. destruct pp_ranks as [|a l]; [done|].
  exists a. split; [apply py_index_0_cons|].
  split; [done|].
  split; [apply t5_position_embedding_ranks_cons|].
  apply rank_set_singleton.
Qed.

(** The group [5,6,7,8] has position-embedding ranks {5}. *)
Lemma position_embedding_ranks_first_witness :
  ∃ first_rank,
    py_index [5; 6; 7; 8] 0 = Ok first_rank ∧
    [5; 6; 7; 8] !! 0%nat = Some first_rank ∧
    t5_position_embedding_ranks [5; 6; 7; 8] = Ok [first_rank] ∧
    rank_set [first_rank] = {[ first_rank ]}.
Proof. apply (position_embedding_ranks_first [5; 6; 7; 8]). discriminate. Defined.

Example position_embedding_ranks_5_6_7_8 :
  t5_position_embedding_ranks [5; 6; 7; 8] = Ok [5].
Proof. reflexivity. Qed.

(** C10: on a non-empty pipeline group, every rank that
    [t5_position_embedding_ranks] returns is also returned by
    [t5_embedding_ranks]: the first rank of the group is in both. *)
Theorem position_ranks_within_embedding_ranks (pp_ranks : list Z) :
  pp_ranks ≠ [] →
  ∃ position_ranks embedding_ranks first_rank,
    t5_position_embedding_ranks pp_ranks = Ok position_ranks ∧
    t5_embedding_ranks pp_ranks = Ok embedding_ranks ∧
    (∀ r, r ∈ position_ranks → r ∈ embedding_ranks) ∧
    rank_set position_ranks ⊆ rank_set embedding_ranks ∧
    pp_ranks !! 0%nat = Some first_rank ∧
    first_rank ∈ position_ranks ∧ first_rank ∈ embedding_ranks.
Proof.
  intros Hne.
  destruct (nonempty_first_last pp_ranks Hne) as (a & b & Ha & Hb).
  destruct pp_ranks as [|a' l]; [done|].
  cbn in Ha. injection Ha as ->.
  exists [a], (if Nat.eqb (length (a :: l)) 1 then [a] else [a; b]), a.
  split; [apply t5_position_embedding_ranks_cons|].
  split; [by apply t5_embedding_ranks_cons|].
  destruct (Nat.eqb (length (a :: l)) 1).
  - repeat split; try done; apply list_elem_of_here.
  - split; [|split; [|repeat split; apply list_elem_of_here]].
    + intros r Hr. apply list_elem_of_singleton in Hr as ->.
      apply list_elem_of_here.
    + rewrite rank_set_singleton, rank_set_pair. apply union_subseteq_l.
Qed.

Lemma position_ranks_within_embedding_ranks_witness :
  ∃ position_ranks embedding_ranks first_rank,
    t5_position_embedding_ranks [5; 6; 7; 8] = Ok position_ranks ∧
    t5_embedding_ranks [5; 6; 7; 8] = Ok embedding_ranks ∧
    (∀ r, r ∈ position_ranks → r ∈ embedding_ranks) ∧
    rank_set position_ranks ⊆ rank_set embedding_ranks ∧
    [5; 6; 7; 8] !! 0%nat = Some first_rank ∧
    first_rank ∈ position_ranks ∧ first_rank ∈ embedding_ranks.
Proof.
  apply (position_ranks_within_embedding_ranks [5; 6; 7; 8]). discriminate.
Defined.

End RankTopologyFacts.

(** ** Running computations *)

Section MonadFacts.
Context {collab : Collaborators}.

Lemma bind_ok {A B : Type} (m : M A) (f : A → M B) (w w' : World) (a : A) :
  m w = (Ok a, w') → (m ≫= f) w = f a w'.
Proof. intros Hm. unfold mbind, M_bind. by rewrite Hm. Qed.

Lemma bind_raise {A B : Type} (m : M A) (f : A → M B) (w w' : World) (e : Exn) :
  m w = (Raise e, w') → (m ≫= f) w = (Raise e, w').
Proof. intros Hm. unfold mbind, M_bind. by rewrite Hm. Qed.

Lemma bind_lift_ok {A B : Type} (r : result A) (f : A → M B) (w : World) (a : A) :
  r = Ok a → (lift r ≫= f) w = f a w.
Proof. intros ->. reflexivity. Qed.

Lemma getitem_ok {V : Type} (d : gmap string V) (k : string) (v : V) :
  d !! k = Some v → getitem d k = Ok v.
Proof. intros Hk. unfold getitem. by rewrite Hk. Qed.

Lemma emit_run (ev : Event) (w : World) : emit ev w = (Ok tt, log ev w).
Proof. reflexivity. Qed.

(** Reading the iterator: [fetches] describes the first step of
    [get_batch]. *)
Lemma fetch_run (data_iterator : option nat) (w w' : World) (data : option Sample) :
  fetches data_iterator w data w' →
  match data_iterator with
  | Some it => x ← next it; mret (Some x)
  | None => mret None
  end w = (Ok data, w').
Proof.
  destruct data_iterator as [it|]; cbn [fetches].
  - intros (x & rest & Hit & -> & ->).
    unfold mbind, M_bind, next. rewrite Hit. reflexivity.
  - intros [-> ->]. reflexivity.
Qed.

(** X10: on an iterator that has nothing left to yield, [get_batch] raises
    StopIteration; nothing is broadcast and the process state is as it
    was. *)
Lemma get_batch_exhausted (it : nat) (use_local : bool) (w : World) :
  default [] (iterators w !! it) = [] →
  get_batch (Some it) use_local w = (Raise StopIteration, w).
Proof.
  intros Hit. unfold get_batch.
  apply bind_raise. apply bind_raise. unfold next. by rewrite Hit.
Qed.

(** [get_batch] on a record that was fetched and broadcast: the six fields
    are decoded, the mask builder is called on the token tensors, the two
    thresholded padding indicators and the flag, and its outcome decides
    the outcome of [get_batch]. *)
Lemma get_batch_run (data_iterator : option nat) (use_local : bool)
    (w w' : World) (data : option Sample) (data_b : gmap string Tensor)
    (text_enc text_dec labels loss_mask enc_mask dec_mask : Tensor) :
  fetches data_iterator w data w' →
  broadcast_data batch_keys data int64 = Ok data_b →
  has_fields data_b text_enc text_dec labels loss_mask enc_mask dec_mask →
  get_batch data_iterator use_local w =
    (match config_attention_mask text_enc text_dec
             (tensor_lt_half enc_mask) (tensor_lt_half dec_mask) use_local with
     | Ok (enc_self, dec_self, enc_dec) =>
         Ok (text_enc, text_dec, float loss_mask, labels, enc_self, dec_self, enc_dec)
     | Raise e => Raise e
     end, w').
Proof.
  intros Hfetch Hb (Hte & Htd & Hlb & Hlm & Hem & Hdm).
  unfold get_batch.
  rewrite (bind_ok _ _ _ _ _ (fetch_run _ _ _ _ Hfetch)).
  erewrite bind_lift_ok by exact Hb.
  erewrite bind_lift_ok by (rewrite (getitem_ok _ _ _ Hte); reflexivity).
  erewrite bind_lift_ok by (rewrite (getitem_ok _ _ _ Htd); reflexivity).
  erewrite bind_lift_ok by (rewrite (getitem_ok _ _ _ Hlb); reflexivity).
  erewrite bind_lift_ok by (rewrite (getitem_ok _ _ _ Hlm); reflexivity).
  erewrite bind_lift_ok by (rewrite (getitem_ok _ _ _ Hem); reflexivity).
  erewrite bind_lift_ok by (rewrite (getitem_ok _ _ _ Hdm); reflexivity).
  unfold long, mbind, M_bind, lift.
  destruct (config_attention_mask _ _ _ _ _) as [[[m1 m2] m3]|e]; reflexivity.
Qed.

(** When the mask builder returns, so does [get_batch]. *)
Lemma get_batch_ok (data_iterator : option nat) (use_local : bool)
    (w w' : World) (data : option Sample) (data_b : gmap string Tensor)
    (text_enc text_dec labels loss_mask enc_mask dec_mask : Tensor)
    (enc_self dec_self enc_dec : Mask) :
  fetches data_iterator w data w' →
  broadcast_data batch_keys data int64 = Ok data_b →
  has_fields data_b text_enc text_dec labels loss_mask enc_mask dec_mask →
  config_attention_mask text_enc text_dec
    (tensor_lt_half enc_mask) (tensor_lt_half dec_mask) use_local
    = Ok (enc_self, dec_self, enc_dec) →
  get_batch data_iterator use_local w =
    (Ok (text_enc, text_dec, float loss_mask, labels, enc_self, dec_self, enc_dec), w').
Proof.
  intros Hfetch Hb Hfields Hmasks.
  erewrite get_batch_run by eassumption. by rewrite Hmasks.
Qed.

End MonadFacts.

(** ** Thresholding the padding indicators *)

Lemma lt_half_spec (v : Z) : lt_half v = true ↔ (inject_Z v < 1 # 2)%Q.
Proof.
  unfold lt_half. rewrite Qlt_alt.
  destruct (inject_Z v ?= 1 # 2)%Q; split; intros Hx; congruence.
Qed.

Lemma lt_half_nonpositive (v : Z) : lt_half v = true ↔ v ≤ 0.
Proof.
  rewrite lt_half_spec. unfold Qlt, inject_Z. cbn. lia.
Qed.

Lemma entry_tensor_lt_half (t : Tensor) (b i : nat) :
  entry (tensor_lt_half t) b i = lt_half <$> entry t b i.
Proof.
  unfold entry, tensor_lt_half. rewrite list_lookup_fmap.
  destruct (t !! b) as [row|]; cbn; [|done].
  apply list_lookup_fmap.
Qed.

(** ** The batch decoder *)

Section BatchDecoder.
Context {collab : Collaborators}.

(** C4: [get_batch] hands the mask builder two boolean masks that have an
    entry wherever the raw padding indicator has one, and the entry is
    [true] exactly when the raw value is strictly below one half. *)
Theorem get_batch_thresholds_padding (data_iterator : option nat) (use_local : bool)
    (w w' : World) (data : option Sample) (data_b : gmap string Tensor)
    (text_enc text_dec labels loss_mask enc_mask dec_mask : Tensor) :
  fetches data_iterator w data w' →
  broadcast_data batch_keys data int64 = Ok data_b →
  has_fields data_b text_enc text_dec labels loss_mask enc_mask dec_mask →
  ∃ enc_valid dec_valid : BoolTensor,
    get_batch data_iterator use_local w =
      (match config_attention_mask text_enc text_dec enc_valid dec_valid use_local with
       | Ok (enc_self, dec_self, enc_dec) =>
           Ok (text_enc, text_dec, float loss_mask, labels, enc_self, dec_self, enc_dec)
       | Raise e => Raise e
       end, w') ∧
    (∀ b i, entry enc_valid b i = None ↔ entry enc_mask b i = None) ∧
    (∀ b i, entry dec_valid b i = None ↔ entry dec_mask b i = None) ∧
    (∀ b i v, entry enc_mask b i = Some v →
       ∃ valid, entry enc_valid b i = Some valid ∧
                (valid = true ↔ (inject_Z v < 1 # 2)%Q)) ∧
    (∀ b i v, entry dec_mask b i = Some v →
       ∃ valid, entry dec_valid b i = Some valid ∧
                (valid = true ↔ (inject_Z v < 1 # 2)%Q)).
Proof.
  intros Hfetch Hb Hfields.
  exists (tensor_lt_half enc_mask), (tensor_lt_half dec_mask).
  split; [by eapply get_batch_run|].
  split; [|split; [|split]].
  - intros b i. rewrite entry_tensor_lt_half.
    by destruct (entry enc_mask b i).
  - intros b i. rewrite entry_tensor_lt_half.
    by destruct (entry dec_mask b i).
  - intros b i v Hv. exists (lt_half v).
    rewrite entry_tensor_lt_half, Hv. split; [done | apply lt_half_spec].
  - intros b i v Hv. exists (lt_half v).
    rewrite entry_tensor_lt_half, Hv. split; [done | apply lt_half_spec].
Qed.

(** C5: [get_batch] calls the mask builder with the backend flag and
    returns (tokens_enc, tokens_dec, loss_mask, labels, enc_mask, dec_mask,
    enc_dec_mask), the three masks being the builder's, in that order. *)
Theorem get_batch_returns_seven (data_iterator : option nat) (use_local : bool)
    (w w' : World) (data : option Sample) (data_b : gmap string Tensor)
    (text_enc text_dec labels loss_mask enc_mask dec_mask : Tensor)
    (enc_self dec_self enc_dec : Mask) :
  fetches data_iterator w data w' →
  broadcast_data batch_keys data int64 = Ok data_b →
  has_fields data_b text_enc text_dec labels loss_mask enc_mask dec_mask →
  config_attention_mask text_enc text_dec
    (tensor_lt_half enc_mask) (tensor_lt_half dec_mask) use_local
    = Ok (enc_self, dec_self, enc_dec) →
  get_batch data_iterator use_local w =
    (Ok (text_enc, text_dec, float loss_mask, labels, enc_self, dec_self, enc_dec), w').
Proof.
  intros Hfetch Hb Hfields Hmasks.
  by eapply get_batch_ok.
Qed.

(** C7, as the code has it: [get_batch] checks no shape itself.  On a
    broadcast record it raises an exception exactly when the mask builder
    raises it on the two token tensors, the two thresholded padding
    indicators and the flag, ShapeError included.  The labels and the loss
    weights are handed through unread: a second record with the same four
    other fields and any labels and loss weights fails when the first
    does, and with the same exception. *)
Theorem get_batch_fails_with_builder (data_iterator : option nat) (use_local : bool)
    (w w' : World) (data : option Sample) (data_b : gmap string Tensor)
    (text_enc text_dec labels loss_mask enc_mask dec_mask : Tensor) :
  fetches data_iterator w data w' →
  broadcast_data batch_keys data int64 = Ok data_b →
  has_fields data_b text_enc text_dec labels loss_mask enc_mask dec_mask →
  (∀ e, get_batch data_iterator use_local w = (Raise e, w') ↔
        config_attention_mask text_enc text_dec
          (tensor_lt_half enc_mask) (tensor_lt_half dec_mask) use_local = Raise e) ∧
  (∀ (other_w other_w' : World) (other_data : option Sample)
     (other_data_b : gmap string Tensor) (other_labels other_loss_mask : Tensor),
     fetches data_iterator other_w other_data other_w' →
     broadcast_data batch_keys other_data int64 = Ok other_data_b →
     has_fields other_data_b
       text_enc text_dec other_labels other_loss_mask enc_mask dec_mask →
     ∀ e, get_batch data_iterator use_local other_w = (Raise e, other_w') ↔
          get_batch data_iterator use_local w = (Raise e, w')).
Proof.
  intros Hfetch Hb Hfields.
  assert (Hiff : ∀ (v v' : World) (d : option Sample) (d_b : gmap string Tensor)
                   (lb lm : Tensor),
    fetches data_iterator v d v' →
    broadcast_data batch_keys d int64 = Ok d_b →
    has_fields d_b text_enc text_dec lb lm enc_mask dec_mask →
    ∀ e, get_batch data_iterator use_local v = (Raise e, v') ↔
         config_attention_mask text_enc text_dec
           (tensor_lt_half enc_mask) (tensor_lt_half dec_mask) use_local = Raise e).
  { intros v v' d d_b lb lm Hf Hbd Hfd e.
    rewrite (get_batch_run _ _ _ _ _ _ _ _ _ _ _ _ Hf Hbd Hfd).
    destruct (config_attention_mask text_enc text_dec (tensor_lt_half enc_mask)
                (tensor_lt_half dec_mask) use_local) as [[[m1 m2] m3]|e'].
    - split; discriminate.
    - split; [by intros [= ->] | by intros [= ->]]. }
  split.
  - by eapply Hiff.
  - intros v v' d d_b lb lm Hf Hbd Hfd e.
    rewrite (Hiff _ _ _ _ _ _ Hf Hbd Hfd e).
    symmetry. by eapply Hiff.
Qed.

(** C6: [forward_step] calls the model with (tokens_enc, tokens_dec,
    enc_mask, dec_mask, enc_dec_mask, labels) and returns the model's
    output paired with [loss_func] with the loss weights bound; the batch
    timer is started before the batch is read and stopped after it. *)
Theorem forward_step_calls_model (args : Args) (data_iterator : option nat)
    (model : ModelHandle) (w w1 w2 : World) (data : option Sample)
    (data_b : gmap string Tensor)
    (text_enc text_dec labels loss_mask enc_mask dec_mask : Tensor)
    (enc_self dec_self enc_dec : Mask) (output_tensor : Output) :
  fetches data_iterator (log (TimerStart "batch generator" (Some 2)) w) data w1 →
  broadcast_data batch_keys data int64 = Ok data_b →
  has_fields data_b text_enc text_dec labels loss_mask enc_mask dec_mask →
  config_attention_mask text_enc text_dec
    (tensor_lt_half enc_mask) (tensor_lt_half dec_mask)
    (String.eqb (transformer_impl args) "local")
    = Ok (enc_self, dec_self, enc_dec) →
  model text_enc text_dec enc_self dec_self enc_dec labels
    (log (TimerStop "batch generator") w1) = (Ok output_tensor, w2) →
  forward_step args data_iterator model w =
    (Ok (output_tensor, partial loss_func (float loss_mask)), w2).
Proof.
  intros Hfetch Hb Hfields Hmasks Hmodel.
  unfold forward_step, timers_start, timers_stop.
  rewrite (bind_ok _ _ _ _ _ (emit_run _ _)).
  rewrite (bind_ok _ _ _ _ _
             (get_batch_ok _ _ _ _ _ _ _ _ _ _ _ _ _ _ _
                Hfetch Hb Hfields Hmasks)).
  rewrite (bind_ok _ _ _ _ _ (emit_run _ _)).
  rewrite (bind_ok _ _ _ _ _ Hmodel).
  reflexivity.
Qed.

End BatchDecoder.

(** ** Model setup *)

Section ModelSetup.
Context {collab : Collaborators}.

(** With legacy models selected, the legacy model is built whatever the
    number of pipeline stages, and nothing is logged. *)
Lemma model_provider_legacy (args : Args)
    (pre_process post_process add_encoder add_decoder : bool) (w : World) :
  use_legacy_models args = true →
  model_provider args pre_process post_process add_encoder add_decoder w =
    (Ok (LegacyT5Model {|
       legacy_config := core_transformer_config_from_args args;
       legacy_num_tokentypes := 0;
       legacy_parallel_output := true;
       legacy_pre_process := pre_process;
       legacy_post_process := post_process;
       legacy_add_encoder := add_encoder;
       legacy_add_decoder := add_decoder |}), w).
Proof. intros Hlegacy. unfold model_provider. by rewrite Hlegacy. Qed.

(** C3, as the code has it: when legacy models are not selected and the
    number of pipeline stages exceeds one, [model_provider] raises
    ValueError("Pipeline parallelism is not supported for T5.") and leaves
    the process state as it was: no block specification is requested, no
    message is printed and no model is constructed. *)
Theorem model_provider_rejects_pipeline (args : Args)
    (pre_process post_process add_encoder add_decoder : bool) (w : World) :
  use_legacy_models args = false →
  1 < pipeline_model_parallel_size args →
  model_provider args pre_process post_process add_encoder add_decoder w =
    (Raise (ValueError "Pipeline parallelism is not supported for T5."), w).
Proof.
  intros Hlegacy Hpp. unfold model_provider. rewrite Hlegacy.
  apply Z.ltb_lt in Hpp. by rewrite Hpp.
Qed.

End ModelSetup.

(** With two stages and legacy models off, setup is refused. *)
Lemma model_provider_rejects_pipeline_witness :
  model_provider (collab := Example.collaborators)
    (Example.with_two_stages false) true true true true
    (Example.world_with Example.sample) =
    (Raise (ValueError "Pipeline parallelism is not supported for T5."),
     Example.world_with Example.sample).
Proof.
  apply (model_provider_rejects_pipeline (collab := Example.collaborators)
           (Example.with_two_stages false) true true true true
           (Example.world_with Example.sample)).
  - reflexivity.
  - reflexivity.
Defined.

(** C3, as the claim words it, fails: with two pipeline stages and legacy
    models selected, [model_provider] raises nothing and returns the legacy
    model. *)
Lemma model_provider_legacy_two_stages :
  1 < pipeline_model_parallel_size (Example.with_two_stages true) ∧
  (∃ kw, model_provider (collab := Example.collaborators)
           (Example.with_two_stages true) true true true true
           (Example.world_with Example.sample) =
         (Ok (LegacyT5Model kw), Example.world_with Example.sample)) ∧
  ¬ (∃ e, fst (model_provider (collab := Example.collaborators)
                 (Example.with_two_stages true) true true true true
                 (Example.world_with Example.sample)) = Raise e).
Proof.
  split; [reflexivity|]. split.
  - eexists. by apply model_provider_legacy.
  - intros [e He]. rewrite model_provider_legacy in He by reflexivity.
    discriminate.
Qed.

(** ** The collaborators of the specification *)

Section SpecModelFacts.
Import SpecModel.

Lemma mask_at_for_backend (use_local : bool) (cells : list (list (list bool)))
    (b i j : nat) :
  mask_at (for_backend use_local cells) b i j =
    (m ← cells !! b; r ← m !! i; r !! j).
Proof.
  destruct use_local; cbn [for_backend mask_at]; [done|].
  rewrite list_lookup_fmap. by destruct (cells !! b).
Qed.

Lemma outer_and_lookup (q k : list bool) (i j : nat) :
  (r ← outer_and q k !! i; r !! j) =
    (qi ← q !! i; kj ← k !! j; Some (qi && kj)).
Proof.
  unfold outer_and. rewrite list_lookup_fmap.
  destruct (q !! i) as [qi|]; cbn; [|done].
  rewrite list_lookup_fmap. by destruct (k !! j).
Qed.

(** The cross-mask of the builder, entry by entry. *)
Lemma cross_mask_entry (use_local : bool) (dec_valid enc_valid : list (list bool))
    (b i j : nat) :
  mask_at (for_backend use_local (zip_with outer_and dec_valid enc_valid)) b i j =
    (dv ← entry dec_valid b i; ev ← entry enc_valid b j; Some (dv && ev)).
Proof.
  rewrite mask_at_for_backend, lookup_zip_with. unfold entry.
  destruct (dec_valid !! b) as [d|]; cbn; [|done].
  destruct (enc_valid !! b) as [e|]; cbn.
  - apply outer_and_lookup.
  - by destruct (d !! i).
Qed.

Lemma config_attention_mask_ok (tokens_enc tokens_dec : Tensor)
    (enc_mask dec_mask : list (list bool)) (use_local : bool) :
  batch_dim enc_mask = batch_dim dec_mask →
  config_attention_mask tokens_enc tokens_dec enc_mask dec_mask use_local =
    Ok (for_backend use_local (map (fun e => outer_and e e) enc_mask),
        for_backend use_local (map (fun d => causal (outer_and d d)) dec_mask),
        for_backend use_local (zip_with outer_and dec_mask enc_mask)).
Proof.
  unfold batch_dim, config_attention_mask. intros Hlen.
  apply Nat.eqb_eq in Hlen. by rewrite Hlen.
Qed.

Lemma config_attention_mask_shape_error (tokens_enc tokens_dec : Tensor)
    (enc_mask dec_mask : list (list bool)) (use_local : bool) :
  batch_dim enc_mask ≠ batch_dim dec_mask →
  config_attention_mask tokens_enc tokens_dec enc_mask dec_mask use_local =
    Raise ShapeError.
Proof.
  unfold batch_dim, config_attention_mask. intros Hlen.
  apply Nat.eqb_neq in Hlen. by rewrite Hlen.
Qed.

Lemma batch_dim_tensor_lt_half (t : Tensor) :
  batch_dim (tensor_lt_half t) = batch_dim t.
Proof. apply length_map. Qed.

Section LossFacts.
Context {F : Type} {ops : FloatOps F} {laws : FloatLaws F}.

Lemma f_sum_zeros (l : list F) : Forall (fun x => x = f_zero) l → f_sum l = f_zero.
Proof.
  induction 1 as [|x l Hx _ IH]; [done|].
  unfold f_sum in *. cbn [foldr]. rewrite IH, Hx. apply f_add_0_0.
Qed.

Lemma float_zeros (loss_mask : Tensor) :
  all_zero loss_mask →
  Forall (fun x => x = f_zero) (concat (map (map f_of_int64) loss_mask)).
Proof.
  induction 1 as [|row rows Hrow _ IH]; cbn [map concat]; [constructor|].
  apply Forall_app. split; [|exact IH].
  induction Hrow as [|v vs Hv _ IHrow]; cbn [map]; constructor; [|exact IHrow].
  rewrite Hv. apply f_of_int64_0.
Qed.

(** With every weight zero, the loss function of the specification fails
    on every output. *)
Lemma loss_func_degenerate (all_reduce_sum : F → F) (loss_mask : Tensor)
    (output_tensor : list (list F)) :
  all_zero loss_mask →
  loss_func all_reduce_sum (map (map f_of_int64) loss_mask) output_tensor =
    Raise DegenerateBatchError.
Proof.
  intros Hzero. unfold loss_func.
  rewrite (f_sum_zeros _ (float_zeros _ Hzero)). by rewrite f_eqb_0_0.
Qed.

End LossFacts.

End SpecModelFacts.

(** ** The entry points over the collaborators of the specification *)

Section OverSpecModel.
Context {F : Type} {ops : FloatOps F}.
Context (sent : gmap string Tensor) (all_reduce_sum : F → F)
        (from_args : Args → TransformerConfig).

Local Abbreviation spec := (spec_collaborators F sent all_reduce_sum from_args).

(** C9: in the batch [get_batch] returns, the cross-mask has an entry at
    batch element [b], decoder query [i] and encoder key [j] exactly when
    both positions exist, and the entry is the conjunction of the validity
    of decoder position [i] and of encoder position [j]. *)
Theorem get_batch_cross_mask (data_iterator : option nat) (use_local : bool)
    (w w' : World (collab := spec)) (data : option (gmap string Tensor))
    (data_b : gmap string Tensor)
    (text_enc text_dec labels loss_mask enc_mask dec_mask : Tensor) :
  fetches (collab := spec) data_iterator w data w' →
  broadcast_data (Collaborators := spec) batch_keys data int64 = Ok data_b →
  has_fields data_b text_enc text_dec labels loss_mask enc_mask dec_mask →
  batch_dim enc_mask = batch_dim dec_mask →
  ∃ enc_self dec_self cross_mask,
    get_batch data_iterator use_local w =
      (Ok (text_enc, text_dec, float (collab := spec) loss_mask, labels,
           enc_self, dec_self, cross_mask), w') ∧
    ∀ b i j,
      SpecModel.mask_at cross_mask b i j =
        (decoder_valid ← entry (tensor_lt_half dec_mask) b i;
         encoder_valid ← entry (tensor_lt_half enc_mask) b j;
         Some (decoder_valid && encoder_valid)).
Proof.
  intros Hfetch Hb Hfields Hdim. do 3 eexists. split.
  - eapply (get_batch_ok (collab := spec)); [exact Hfetch | exact Hb | exact Hfields |].
    cbn [config_attention_mask spec_collaborators].
    apply config_attention_mask_ok. by rewrite !batch_dim_tensor_lt_half.
  - intros b i j. apply cross_mask_entry.
Qed.

(** C8: when every loss weight of the microbatch is zero, the closure
    [forward_step] returns raises DegenerateBatchError on every output, so
    it returns no value at all. *)
Theorem forward_step_degenerate {laws : FloatLaws F} (args : Args)
    (data_iterator : option nat) (model : ModelHandle (collab := spec))
    (w w1 w2 : World (collab := spec)) (data : option (gmap string Tensor))
    (data_b : gmap string Tensor)
    (text_enc text_dec labels loss_mask enc_mask dec_mask : Tensor)
    (enc_self dec_self enc_dec : SpecModel.AttnMask)
    (output_tensor : list (list F)) :
  fetches (collab := spec) data_iterator
    (log (TimerStart "batch generator" (Some 2)) w) data w1 →
  broadcast_data (Collaborators := spec) batch_keys data int64 = Ok data_b →
  has_fields data_b text_enc text_dec labels loss_mask enc_mask dec_mask →
  SpecModel.config_attention_mask text_enc text_dec
    (tensor_lt_half enc_mask) (tensor_lt_half dec_mask)
    (String.eqb (transformer_impl args) "local")
    = Ok (enc_self, dec_self, enc_dec) →
  model text_enc text_dec enc_self dec_self enc_dec labels
    (log (TimerStop "batch generator") w1) = (Ok output_tensor, w2) →
  all_zero loss_mask →
  ∃ loss_closure,
    forward_step args data_iterator model w = (Ok (output_tensor, loss_closure), w2) ∧
    (∀ output, loss_closure output = Raise DegenerateBatchError) ∧
    (∀ output loss, loss_closure output ≠ Ok loss).
Proof.
  intros Hfetch Hb Hfields Hmasks Hmodel Hzero.
  exists (partial (loss_func (Collaborators := spec)) (float (collab := spec) loss_mask)).
  assert (Hraise : ∀ output,
    partial (loss_func (Collaborators := spec)) (float (collab := spec) loss_mask) output
    = Raise DegenerateBatchError).
  { intros output. unfold partial, float.
    cbn [loss_func float_of_int64 spec_collaborators].
    by apply loss_func_degenerate. }
  split; [|split].
  - unfold forward_step, timers_start, timers_stop.
    rewrite (bind_ok _ _ _ _ _ (emit_run _ _)).
    rewrite (bind_ok _ _ _ _ _
               (get_batch_ok (collab := spec) _ _ _ _ _ _ _ _ _ _ _ _ _ _ _
                  Hfetch Hb Hfields Hmasks)).
    rewrite (bind_ok _ _ _ _ _ (emit_run _ _)).
    rewrite (bind_ok _ _ _ _ _ Hmodel).
    reflexivity.
  - exact Hraise.
  - intros output loss. rewrite Hraise. discriminate.
Qed.

End OverSpecModel.

(** ** The statements on the concrete instance *)

Section OnExample.
Import Example.

Lemma Q_float_laws : FloatLaws Q.
Proof. split; reflexivity. Qed.

Lemma sample_fetched (x : gmap string Tensor) (w : World) :
  iterators w !! 0%nat = Some [x] →
  fetches (Some 0%nat) w (Some x) (fetched w).
Proof. intros Hit. exists x, []. split; [exact Hit | split; reflexivity]. Qed.

Lemma get_batch_thresholds_padding_witness :
  ∃ enc_valid dec_valid : BoolTensor,
    get_batch (Some 0%nat) true (world_with sample) =
      (match config_attention_mask text_enc text_dec enc_valid dec_valid true with
       | Ok (enc_self, dec_self, enc_dec) =>
           Ok (text_enc, text_dec, float loss_mask, labels, enc_self, dec_self, enc_dec)
       | Raise e => Raise e
       end, fetched (world_with sample)) ∧
    (∀ b i, entry enc_valid b i = None ↔ entry enc_mask b i = None) ∧
    (∀ b i, entry dec_valid b i = None ↔ entry dec_mask b i = None) ∧
    (∀ b i v, entry enc_mask b i = Some v →
       ∃ valid, entry enc_valid b i = Some valid ∧
                (valid = true ↔ (inject_Z v < 1 # 2)%Q)) ∧
    (∀ b i v, entry dec_mask b i = Some v →
       ∃ valid, entry dec_valid b i = Some valid ∧
                (valid = true ↔ (inject_Z v < 1 # 2)%Q)).
Proof.
  apply (get_batch_thresholds_padding (Some 0%nat) true (world_with sample)
           (fetched (world_with sample)) (Some sample) sample
           text_enc text_dec labels loss_mask enc_mask dec_mask).
  - apply sample_fetched. reflexivity.
  - vm_compute. reflexivity.
  - repeat split; vm_compute; reflexivity.
Defined.

Example thresholded_padding_of_sample :
  tensor_lt_half enc_mask = [[true; true; false]] ∧
  tensor_lt_half dec_mask = [[true; false]] ∧
  map lt_half [-1; 0; 1; 2] = [true; true; false; false].
Proof. repeat split. Qed.

Lemma get_batch_returns_seven_witness :
  get_batch None true (world_with sample) =
    (Ok (text_enc, text_dec, float loss_mask, labels, enc_self, dec_self, enc_dec),
     world_with sample).
Proof.
  apply (get_batch_returns_seven None true (world_with sample)
           (world_with sample) None sample
           text_enc text_dec labels loss_mask enc_mask dec_mask).
  - split; reflexivity.
  - vm_compute. reflexivity.
  - repeat split; vm_compute; reflexivity.
  - vm_compute. reflexivity.
Defined.

Lemma forward_step_calls_model_witness :
  forward_step local_args (Some 0%nat) model (world_with sample) =
    (Ok ([[1 # 4; 1 # 4]]%Q, partial loss_func (float loss_mask)),
     stepped (world_with sample)).
Proof.
  apply (forward_step_calls_model local_args (Some 0%nat) model
           (world_with sample)
           (fetched (log (TimerStart "batch generator" (Some 2)) (world_with sample)))
           (stepped (world_with sample)) (Some sample) sample
           text_enc text_dec labels loss_mask enc_mask dec_mask
           enc_self dec_self enc_dec).
  - apply sample_fetched. reflexivity.
  - vm_compute. reflexivity.
  - repeat split; vm_compute; reflexivity.
  - vm_compute. reflexivity.
  - reflexivity.
Defined.

(** The loss of [sample]: one position of weight 1 and loss 1/4. *)
Example loss_of_sample :
  ∃ loss, partial loss_func (float loss_mask) [[1 # 4; 1 # 4]]%Q = Ok loss ∧
          (loss == 1 # 4)%Q.
Proof. eexists. split; [vm_compute; reflexivity | reflexivity]. Qed.

(** C7, as the claim words it, fails: the labels and loss weights of
    [ragged_sample] have batch dimension 2 and the other four fields batch
    dimension 1, and [get_batch] returns all seven tensors. *)
Lemma get_batch_ragged_labels_returns :
  batch_dims_agree
    [text_enc; text_dec; ragged_labels; ragged_loss_mask; enc_mask; dec_mask] = false ∧
  broadcast_data batch_keys (Some ragged_sample) int64 = Ok ragged_sample ∧
  has_fields ragged_sample
    text_enc text_dec ragged_labels ragged_loss_mask enc_mask dec_mask ∧
  fst (get_batch (Some 0%nat) true (world_with ragged_sample)) =
    Ok (text_enc, text_dec, float ragged_loss_mask, ragged_labels,
        enc_self, dec_self, enc_dec) ∧
  fst (get_batch (Some 0%nat) true (world_with ragged_sample)) ≠ Raise ShapeError.
Proof.
  split; [reflexivity|].
  split; [vm_compute; reflexivity|].
  split; [repeat split; vm_compute; reflexivity|].
  split; [vm_compute; reflexivity|].
  vm_compute. discriminate.
Qed.

Lemma get_batch_cross_mask_witness :
  ∃ enc_self dec_self cross_mask,
    get_batch (Some 0%nat) false (world_with sample) =
      (Ok (text_enc, text_dec, float loss_mask, labels,
           enc_self, dec_self, cross_mask), fetched (world_with sample)) ∧
    ∀ b i j,
      SpecModel.mask_at cross_mask b i j =
        (decoder_valid ← entry (tensor_lt_half dec_mask) b i;
         encoder_valid ← entry (tensor_lt_half enc_mask) b j;
         Some (decoder_valid && encoder_valid)).
Proof.
  apply (get_batch_cross_mask sample (fun total => total) from_args
           (Some 0%nat) false (world_with sample)
           (fetched (world_with sample)) (Some sample) sample
           text_enc text_dec labels loss_mask enc_mask dec_mask).
  - apply sample_fetched. reflexivity.
  - vm_compute. reflexivity.
  - repeat split; vm_compute; reflexivity.
  - reflexivity.
Defined.

Lemma forward_step_degenerate_witness :
  ∃ loss_closure,
    forward_step local_args (Some 0%nat) model (world_with zero_weight_sample) =
      (Ok ([[1 # 4; 1 # 4]]%Q, loss_closure), stepped (world_with zero_weight_sample)) ∧
    (∀ output, loss_closure output = Raise DegenerateBatchError) ∧
    (∀ output loss, loss_closure output ≠ Ok loss).
Proof.
  apply (forward_step_degenerate sample (fun total => total) from_args
           (laws := Q_float_laws) local_args (Some 0%nat) model
           (world_with zero_weight_sample)
           (fetched (log (TimerStart "batch generator" (Some 2))
                       (world_with zero_weight_sample)))
           (stepped (world_with zero_weight_sample))
           (Some zero_weight_sample) zero_weight_sample
           text_enc text_dec labels [[0; 0]] enc_mask dec_mask
           enc_self dec_self enc_dec).
  - apply sample_fetched. reflexivity.
  - vm_compute. reflexivity.
  - repeat split; vm_compute; reflexivity.
  - vm_compute. reflexivity.
  - reflexivity.
  - repeat constructor.
Defined.

End OnExample.

(** ** More on the rank topology *)

Section RankTopologyMore.
Import RankTopology.

Lemma py_index_0_head {A : Type} (l : list A) (a : A) :
  head l = Some a → py_index l 0 = Ok a.
Proof.
  destruct l as [|a' l]; [discriminate|].
  intros [= ->]. apply py_index_0_cons.
Qed.

Lemma t5_embedding_ranks_ends (pp_ranks : list Z) (a b : Z) :
  head pp_ranks = Some a → last pp_ranks = Some b →
  t5_embedding_ranks pp_ranks =
    Ok (if Nat.eqb (length pp_ranks) 1 then [a] else [a; b]).
Proof.
  destruct pp_ranks as [|a' l]; [discriminate|].
  intros [= ->] Hb. by apply t5_embedding_ranks_cons.
Qed.

Lemma t5_embedding_ranks_nil : t5_embedding_ranks [] = Raise IndexError.
Proof. reflexivity. Qed.

Lemma t5_embedding_ranks_nonempty (pp_ranks : list Z) :
  pp_ranks ≠ [] →
  ∃ a b, head pp_ranks = Some a ∧ last pp_ranks = Some b ∧
    t5_embedding_ranks pp_ranks =
      Ok (if Nat.eqb (length pp_ranks) 1 then [a] else [a; b]).
Proof.
  intros Hne.
  destruct (nonempty_first_last pp_ranks Hne) as (a & b & Ha & Hb).
  rewrite <- head_lookup in Ha.
  exists a, b. split; [done|]. split; [done|].
  by apply t5_embedding_ranks_ends.
Qed.

(** X1: both rank functions raise IndexError on the empty group, return
    on every other group, and raise nothing else. *)
Theorem rank_functions_fail_only_on_empty (pp_ranks : list Z) :
  (t5_embedding_ranks pp_ranks = Raise IndexError ↔ pp_ranks = []) ∧
  (t5_position_embedding_ranks pp_ranks = Raise IndexError ↔ pp_ranks = []) ∧
  (∀ e, t5_embedding_ranks pp_ranks = Raise e → e = IndexError) ∧
  (∀ e, t5_position_embedding_ranks pp_ranks = Raise e → e = IndexError).
Proof.
  destruct pp_ranks as [|a l].
  - repeat split; try done; intros e He; cbv in He; congruence.
  - destruct (t5_embedding_ranks_nonempty (a :: l)) as (a' & b & _ & _ & Hemb); [done|].
    rewrite Hemb, t5_position_embedding_ranks_cons.
    repeat split; done.
Qed.

(** X2: every rank [t5_embedding_ranks] returns is a rank of the group,
    and it returns one rank for a group of one and two ranks for any
    larger group. *)
Theorem embedding_ranks_from_group (pp_ranks ranks : list Z) :
  t5_embedding_ranks pp_ranks = Ok ranks →
  (∀ r, r ∈ ranks → r ∈ pp_ranks) ∧
  length ranks = Nat.min 2 (length pp_ranks).
Proof.
  intros Hranks.
  destruct pp_ranks as [|a l]; [discriminate|].
  destruct (t5_embedding_ranks_nonempty (a :: l)) as (a' & b & Ha & Hb & Hemb); [done|].
  injection Ha as <-. rewrite Hemb in Hranks. injection Hranks as <-.
  apply last_Some_elem_of in Hb.
  destruct l as [|x l].
  - split; [|done]. intros r Hr. exact Hr.
  - cbn [length Nat.eqb]. split; [|done].
    intros r Hr. apply elem_of_cons in Hr as [->|Hr]; [apply list_elem_of_here|].
    apply list_elem_of_singleton in Hr as ->. exact Hb.
Qed.

Lemma embedding_ranks_from_group_witness :
  (∀ r, r ∈ [5; 8] → r ∈ [5; 6; 7; 8]) ∧
  length [5; 8] = Nat.min 2 (length [5; 6; 7; 8]).
Proof. apply (embedding_ranks_from_group [5; 6; 7; 8] [5; 8]). reflexivity. Defined.

(** X3: on a group whose ranks are pairwise distinct, the ranks
    [t5_embedding_ranks] returns are pairwise distinct too. *)
Theorem embedding_ranks_distinct (pp_ranks ranks : list Z) :
  NoDup pp_ranks →
  t5_embedding_ranks pp_ranks = Ok ranks →
  NoDup ranks.
Proof.
  intros Hnodup Hranks.
  destruct pp_ranks as [|a l]; [discriminate|].
  destruct (t5_embedding_ranks_nonempty (a :: l)) as (a' & b & Ha & Hb & Hemb); [done|].
  injection Ha as <-. rewrite Hemb in Hranks. injection Hranks as <-.
  destruct l as [|x l]; [apply NoDup_singleton|].
  cbn [length Nat.eqb].
  rewrite last_cons_cons in Hb. apply last_Some_elem_of in Hb.
  apply NoDup_cons in Hnodup as [Ha _].
  apply NoDup_cons. split; [|apply NoDup_singleton].
  intros Hin. apply list_elem_of_singleton in Hin as ->. done.
Qed.

Lemma embedding_ranks_distinct_witness : NoDup [5; 8].
Proof.
  apply (embedding_ranks_distinct [5; 6; 7; 8] [5; 8]).
  - refine (bool_decide_unpack (NoDup [5; 6; 7; 8]) _). vm_compute. exact I.
  - reflexivity.
Defined.

(** Without distinct ranks the result can repeat a rank. *)
Example embedding_ranks_repeated : t5_embedding_ranks [3; 4; 3] = Ok [3; 3].
Proof. reflexivity. Qed.

(** X4: running the pipeline group backwards gives the embedding ranks
    backwards, hence the same set of ranks. *)
Theorem embedding_ranks_reverse (pp_ranks ranks : list Z) :
  t5_embedding_ranks pp_ranks = Ok ranks →
  t5_embedding_ranks (reverse pp_ranks) = Ok (reverse ranks) ∧
  rank_set (reverse ranks) = rank_set ranks.
Proof.
  intros Hranks.
  destruct pp_ranks as [|a l]; [discriminate|].
  destruct (t5_embedding_ranks_nonempty (a :: l)) as (a' & b & Ha & Hb & Hemb); [done|].
  rewrite Hemb in Hranks.
  rewrite (t5_embedding_ranks_ends (reverse (a :: l)) b a').
  - rewrite length_reverse.
    destruct (Nat.eqb (length (a :: l)) 1) eqn:Hlen; injection Hranks as <-.
    + apply Nat.eqb_eq in Hlen. destruct l; [|discriminate].
      cbn in Ha, Hb. simplify_eq. split; reflexivity.
    + split; [reflexivity|]. change (reverse [a'; b]) with [b; a'].
      rewrite !rank_set_pair. apply union_comm_L.
  - by rewrite head_reverse.
  - by rewrite last_reverse.
Qed.

Lemma embedding_ranks_reverse_witness :
  t5_embedding_ranks (reverse [5; 6; 7; 8]) = Ok (reverse [5; 8]) ∧
  rank_set (reverse [5; 8]) = rank_set [5; 8].
Proof. apply (embedding_ranks_reverse [5; 6; 7; 8] [5; 8]). reflexivity. Defined.

End RankTopologyMore.

(** ** More on model setup *)

Section ModelSetupMore.
Context {collab : Collaborators}.

(** The outcome of [model_provider] when legacy models are not selected,
    by the three tests the code makes in turn. *)
Lemma model_provider_core (args : Args)
    (pre_process post_process add_encoder add_decoder : bool) (w : World) :
  use_legacy_models args = false →
  model_provider args pre_process post_process add_encoder add_decoder w =
    let config := core_transformer_config_from_args args in
    let stages := config_pipeline_model_parallel_size config in
    let printed := log (PrintRank0 "building T5 model ...") w in
    let built (en_block_spec de_block_spec : BlockSpec) :=
      T5Model {|
        t5_config := config;
        t5_encoder_config := set_num_layers (encoder_num_layers args) config;
        t5_transformer_encoder_layer_spec := en_block_spec;
        t5_transformer_decoder_layer_spec := de_block_spec;
        t5_vocab_size := padded_vocab_size args;
        t5_max_sequence_length := max_position_embeddings args;
        t5_pre_process := pre_process;
        t5_post_process := post_process;
        t5_fp16_lm_cross_entropy := fp16_lm_cross_entropy args;
        t5_parallel_output := true;
        t5_share_embeddings_and_output_weights :=
          negb (untie_embeddings_and_output_weights args);
        t5_position_embedding_type := position_embedding_type args;
        t5_rotary_percent := rotary_percent args;
        t5_relative_attention_num_buckets := relative_attention_num_buckets args;
        t5_relative_attention_max_distance := relative_attention_max_distance args;
        t5_add_encoder := add_encoder;
        t5_add_decoder := add_decoder |} in
    if 1 <? pipeline_model_parallel_size args then
      (Raise (ValueError "Pipeline parallelism is not supported for T5."), w)
    else if stages =? 0 then (Raise ZeroDivisionError, w)
    else if String.eqb (transformer_impl args) "local" then
      (Ok (built (get_t5_encoder_with_local_block_spec
                    (encoder_num_layers args / stages))
                 (get_t5_decoder_with_local_block_spec
                    (num_layers config / stages))), printed)
    else if String.eqb (transformer_impl args) "transformer_engine" then
      (Ok (built (get_t5_encoder_with_transformer_engine_block_spec
                    (encoder_num_layers args / stages))
                 (get_t5_decoder_with_transformer_engine_block_spec
                    (num_layers config / stages))), printed)
    else (Raise (UnboundLocalError "en_block_spec"), printed).
Proof.
  intros Hlegacy. unfold model_provider. rewrite Hlegacy.
  destruct (1 <? pipeline_model_parallel_size args); [reflexivity|].
  unfold py_floordiv, deepcopy. cbn [set_num_layers config_pipeline_model_parallel_size num_layers].
  destruct (config_pipeline_model_parallel_size
              (core_transformer_config_from_args args) =? 0); [reflexivity|].
  destruct (String.eqb (transformer_impl args) "local"); [reflexivity|].
  destruct (String.eqb (transformer_impl args) "transformer_engine"); reflexivity.
Qed.

(** X5: [model_provider] returns a model exactly when legacy models are
    selected, or the stage count is at most 1, the configuration's stage
    count is not zero and the backend is "local" or "transformer_engine". *)
Theorem model_provider_succeeds_iff (args : Args)
    (pre_process post_process add_encoder add_decoder : bool) (w : World) :
  (∃ model w',
     model_provider args pre_process post_process add_encoder add_decoder w =
       (Ok model, w')) ↔
  use_legacy_models args = true ∨
  (pipeline_model_parallel_size args ≤ 1 ∧
   config_pipeline_model_parallel_size (core_transformer_config_from_args args) ≠ 0 ∧
   (transformer_impl args = "local" ∨ transformer_impl args = "transformer_engine")).
Proof.
  destruct (use_legacy_models args) eqn:Hlegacy.
  - split; [by left|]. intros _. do 2 eexists. by apply model_provider_legacy.
  - rewrite (model_provider_core _ _ _ _ _ _ Hlegacy). cbv zeta.
    destruct (Z.ltb_spec 1 (pipeline_model_parallel_size args)) as [Hpp|Hpp].
    { split; [by intros (? & ? & ?)|]. intros [?|(? & _)]; [done | lia]. }
    destruct (Z.eqb_spec (config_pipeline_model_parallel_size
                            (core_transformer_config_from_args args)) 0) as [Hz|Hz].
    { split; [by intros (? & ? & ?)|]. intros [?|(_ & ? & _)]; done. }
    destruct (String.eqb_spec (transformer_impl args) "local") as [Hl|Hl].
    { split; [|by eauto]. intros _. right. auto. }
    destruct (String.eqb_spec (transformer_impl args) "transformer_engine") as [Ht|Ht].
    { split; [|by eauto]. intros _. right. auto. }
    split; [by intros (? & ? & ?)|]. intros [?|(_ & _ & [?|?])]; done.
Qed.

(** X6: without legacy models, with at most one stage in the arguments,
    a configuration whose stage count is not zero and a backend name other
    than "local" and "transformer_engine", [model_provider] prints its
    message and then raises UnboundLocalError for [en_block_spec], which
    no branch has assigned. *)
Theorem model_provider_unknown_backend (args : Args)
    (pre_process post_process add_encoder add_decoder : bool) (w : World) :
  use_legacy_models args = false →
  pipeline_model_parallel_size args ≤ 1 →
  config_pipeline_model_parallel_size (core_transformer_config_from_args args) ≠ 0 →
  transformer_impl args ≠ "local" →
  transformer_impl args ≠ "transformer_engine" →
  model_provider args pre_process post_process add_encoder add_decoder w =
    (Raise (UnboundLocalError "en_block_spec"),
     log (PrintRank0 "building T5 model ...") w).
Proof.
  intros Hlegacy Hpp Hz Hl Ht.
  rewrite (model_provider_core _ _ _ _ _ _ Hlegacy). cbv zeta.
  destruct (Z.ltb_spec 1 (pipeline_model_parallel_size args)); [lia|].
  destruct (Z.eqb_spec (config_pipeline_model_parallel_size
                          (core_transformer_config_from_args args)) 0); [done|].
  destruct (String.eqb_spec (transformer_impl args) "local"); [done|].
  by destruct (String.eqb_spec (transformer_impl args) "transformer_engine").
Qed.

(** X7: when the configuration's stage count is zero, the layer division
    raises ZeroDivisionError before anything is printed or built. *)
Theorem model_provider_zero_stages (args : Args)
    (pre_process post_process add_encoder add_decoder : bool) (w : World) :
  use_legacy_models args = false →
  pipeline_model_parallel_size args ≤ 1 →
  config_pipeline_model_parallel_size (core_transformer_config_from_args args) = 0 →
  model_provider args pre_process post_process add_encoder add_decoder w =
    (Raise ZeroDivisionError, w).
Proof.
  intros Hlegacy Hpp Hz.
  rewrite (model_provider_core _ _ _ _ _ _ Hlegacy). cbv zeta.
  destruct (Z.ltb_spec 1 (pipeline_model_parallel_size args)); [lia|].
  by rewrite Hz.
Qed.

(** X8: when the configuration carries the stage count of the arguments
    and that count is positive, a model built without legacy models has
    exactly one stage, so the division of the layers by the stage count
    changes nothing: the encoder block has [encoder_num_layers] layers and
    the decoder block the configuration's [num_layers]. *)
Theorem model_provider_layers (args : Args)
    (pre_process post_process add_encoder add_decoder : bool) (w w' : World)
    (model : BuiltModel) :
  use_legacy_models args = false →
  config_pipeline_model_parallel_size (core_transformer_config_from_args args) =
    pipeline_model_parallel_size args →
  0 < pipeline_model_parallel_size args →
  model_provider args pre_process post_process add_encoder add_decoder w =
    (Ok model, w') →
  pipeline_model_parallel_size args = 1 ∧
  ∃ kw, model = T5Model kw ∧
    block_spec_layers (t5_transformer_encoder_layer_spec kw) = encoder_num_layers args ∧
    block_spec_layers (t5_transformer_decoder_layer_spec kw) =
      num_layers (core_transformer_config_from_args args) ∧
    num_layers (t5_encoder_config kw) = encoder_num_layers args ∧
    config_pipeline_model_parallel_size (t5_encoder_config kw) =
      config_pipeline_model_parallel_size (core_transformer_config_from_args args) ∧
    t5_config kw = core_transformer_config_from_args args.
Proof.
  intros Hlegacy Hcfg Hpos.
  rewrite (model_provider_core _ _ _ _ _ _ Hlegacy). cbv zeta.
  rewrite Hcfg.
  destruct (Z.ltb_spec 1 (pipeline_model_parallel_size args)) as [Hpp|Hpp]; [done|].
  assert (Hone : pipeline_model_parallel_size args = 1) by lia.
  rewrite Hone, !Z.div_1_r. cbn [Z.eqb].
  destruct (String.eqb (transformer_impl args) "local").
  { intros [= <- _]. split; [done|]. eexists.
    repeat split; cbn; rewrite ?Hcfg, ?Hone; reflexivity. }
  destruct (String.eqb (transformer_impl args) "transformer_engine").
  { intros [= <- _]. split; [done|]. eexists.
    repeat split; cbn; rewrite ?Hcfg, ?Hone; reflexivity. }
  discriminate.
Qed.

(** X9: [model_provider] never touches the data iterators, and the only
    thing it can log is its one message; with legacy models it logs
    nothing. *)
Theorem model_provider_frame (args : Args)
    (pre_process post_process add_encoder add_decoder : bool) (w : World) :
  let w' := snd (model_provider args pre_process post_process add_encoder add_decoder w) in
  iterators w' = iterators w ∧
  (events w' = events w ∨
   events w' = (events w ++ [PrintRank0 "building T5 model ..."])%list) ∧
  (use_legacy_models args = true → events w' = events w).
Proof.
  destruct (use_legacy_models args) eqn:Hlegacy.
  - rewrite model_provider_legacy by done. cbn. auto.
  - rewrite (model_provider_core _ _ _ _ _ _ Hlegacy). cbv zeta.
    repeat case_match; cbn; (split; [done|]); (split; [auto | done]).
Qed.

End ModelSetupMore.

Lemma model_provider_unknown_backend_witness :
  model_provider (collab := Example.collaborators)
    (Scenario.with_impl "flash" 1) true true true true
    (Example.world_with Example.sample) =
    (Raise (UnboundLocalError "en_block_spec"),
     log (PrintRank0 "building T5 model ...") (Example.world_with Example.sample)).
Proof.
  apply (model_provider_unknown_backend (collab := Example.collaborators)
           (Scenario.with_impl "flash" 1) true true true true
           (Example.world_with Example.sample)).
  - reflexivity.
  - vm_compute. discriminate.
  - vm_compute. discriminate.
  - discriminate.
  - discriminate.
Defined.

Lemma model_provider_zero_stages_witness :
  model_provider (collab := Example.collaborators)
    (Scenario.with_impl "local" 0) true true true true
    (Example.world_with Example.sample) =
    (Raise ZeroDivisionError, Example.world_with Example.sample).
Proof.
  apply (model_provider_zero_stages (collab := Example.collaborators)
           (Scenario.with_impl "local" 0) true true true true
           (Example.world_with Example.sample)).
  - reflexivity.
  - vm_compute. discriminate.
  - reflexivity.
Defined.

Lemma model_provider_layers_witness :
  pipeline_model_parallel_size Example.local_args = 1 ∧
  ∃ kw,
    fst (model_provider (collab := Example.collaborators)
           Example.local_args true true true true
           (Example.world_with Example.sample)) = Ok (T5Model kw) ∧
    block_spec_layers (t5_transformer_encoder_layer_spec kw) =
      encoder_num_layers Example.local_args ∧
    block_spec_layers (t5_transformer_decoder_layer_spec kw) =
      num_layers (Example.from_args Example.local_args) ∧
    num_layers (t5_encoder_config kw) = encoder_num_layers Example.local_args ∧
    config_pipeline_model_parallel_size (t5_encoder_config kw) =
      config_pipeline_model_parallel_size (Example.from_args Example.local_args) ∧
    t5_config kw = Example.from_args Example.local_args.
Proof.
  destruct (model_provider_layers (collab := Example.collaborators)
              Example.local_args true true true true
              (Example.world_with Example.sample)
              (snd (model_provider (collab := Example.collaborators)
                      Example.local_args true true true true
                      (Example.world_with Example.sample)))
              (match fst (model_provider (collab := Example.collaborators)
                            Example.local_args true true true true
                            (Example.world_with Example.sample)) with
               | Ok m => m
               | Raise _ => LegacyT5Model
                   {| legacy_config := Example.from_args Example.local_args;
                      legacy_num_tokentypes := 0; legacy_parallel_output := true;
                      legacy_pre_process := true; legacy_post_process := true;
                      legacy_add_encoder := true; legacy_add_decoder := true |}
               end)) as (Hone & kw & Hkw & Hrest).
  - reflexivity.
  - reflexivity.
  - reflexivity.
  - reflexivity.
  - split; [exact Hone|]. exists kw. split; [|exact Hrest].
    rewrite <- Hkw. reflexivity.
Defined.

(** ** More on the batch decoder *)

Section BatchDecoderMore.
Context {collab : Collaborators}.

Lemma getitem_step {A B : Type} (data_b : gmap string Tensor) (k : string)
    (v : Tensor) (f : Tensor → A) (g : A → M B) (w : World) :
  data_b !! k = Some v →
  (lift (f <$> getitem data_b k) ≫= g) w = g (f v) w.
Proof. intros Hk. apply bind_lift_ok. by rewrite (getitem_ok _ _ _ Hk). Qed.

Lemma getitem_fail {A B : Type} (data_b : gmap string Tensor) (k : string)
    (f : Tensor → A) (g : A → M B) (w : World) :
  data_b !! k = None →
  (lift (f <$> getitem data_b k) ≫= g) w = (Raise (KeyError k), w).
Proof. intros Hk. unfold getitem. by rewrite Hk. Qed.

(** X11: when the broadcast record lacks one of the six keys, [get_batch]
    raises KeyError for the first key, in the order text_enc, text_dec,
    labels, loss_mask, enc_mask, dec_mask, that is missing; the mask
    builder is not reached. *)
Theorem get_batch_missing_key (data_iterator : option nat) (use_local : bool)
    (w w' : World) (data : option Sample) (data_b : gmap string Tensor)
    (present later : list string) (key : string) :
  fetches data_iterator w data w' →
  broadcast_data batch_keys data int64 = Ok data_b →
  batch_keys = (present ++ key :: later)%list →
  (∀ k, k ∈ present → is_Some (data_b !! k)) →
  data_b !! key = None →
  get_batch data_iterator use_local w = (Raise (KeyError key), w').
Proof.
  intros Hfetch Hb Hkeys Hpresent Hmissing.
  unfold get_batch.
  rewrite (bind_ok _ _ _ _ _ (fetch_run _ _ _ _ Hfetch)).
  erewrite bind_lift_ok by exact Hb.
  unfold batch_keys in Hkeys.
  destruct present as [|p present]; simplify_eq/=; [by apply getitem_fail|].
  destruct (Hpresent "text_enc") as [v1 Hv1]; [apply list_elem_of_here|].
  rewrite (getitem_step _ _ _ _ _ _ Hv1).
  destruct present as [|p present]; simplify_eq/=; [by apply getitem_fail|].
  destruct (Hpresent "text_dec") as [v2 Hv2]; [do 1 apply list_elem_of_further; apply list_elem_of_here|].
  rewrite (getitem_step _ _ _ _ _ _ Hv2).
  destruct present as [|p present]; simplify_eq/=; [by apply getitem_fail|].
  destruct (Hpresent "labels") as [v3 Hv3]; [do 2 apply list_elem_of_further; apply list_elem_of_here|].
  rewrite (getitem_step _ _ _ _ _ _ Hv3).
  destruct present as [|p present]; simplify_eq/=; [by apply getitem_fail|].
  destruct (Hpresent "loss_mask") as [v4 Hv4]; [do 3 apply list_elem_of_further; apply list_elem_of_here|].
  rewrite (getitem_step _ _ _ _ _ _ Hv4).
  destruct present as [|p present]; simplify_eq/=; [by apply getitem_fail|].
  destruct (Hpresent "enc_mask") as [v5 Hv5]; [do 4 apply list_elem_of_further; apply list_elem_of_here|].
  rewrite (getitem_step _ _ _ _ _ _ Hv5).
  destruct present as [|p present]; simplify_eq/=; [by apply getitem_fail|].
  destruct present; discriminate.
Qed.

(** What [get_batch] leaves behind is what reading the iterator leaves
    behind: the broadcast, the decoding and the mask builder do not touch
    the process state. *)
Lemma get_batch_state (data_iterator : option nat) (use_local : bool) (w : World) :
  snd (get_batch data_iterator use_local w) =
    match data_iterator with
    | None => w
    | Some it =>
        match default [] (iterators w !! it) with
        | [] => w
        | x :: rest => advanced it rest w
        end
    end.
Proof.
  unfold get_batch, mbind, M_bind, mret, M_ret, lift, next, advanced.
  destruct data_iterator as [it|].
  - destruct (default [] (iterators w !! it)) as [|x rest]; [reflexivity|].
    repeat case_match; reflexivity.
  - repeat case_match; reflexivity.
Qed.

Lemma get_batch_events (data_iterator : option nat) (use_local : bool) (w : World) :
  events (snd (get_batch data_iterator use_local w)) = events w.
Proof.
  rewrite get_batch_state. destruct data_iterator as [it|]; [|done].
  by destruct (default [] (iterators w !! it)).
Qed.

(** X12: [get_batch] logs nothing, leaves every iterator other than its
    own as it was, and on a rank whose iterator is [None] leaves the whole
    process state as it was, whether it returns or raises. *)
Theorem get_batch_frame (data_iterator : option nat) (use_local : bool) (w : World) :
  events (snd (get_batch data_iterator use_local w)) = events w ∧
  (∀ other, data_iterator ≠ Some other →
     iterators (snd (get_batch data_iterator use_local w)) !! other =
     iterators w !! other) ∧
  (data_iterator = None → snd (get_batch data_iterator use_local w) = w).
Proof.
  split; [apply get_batch_events|]. rewrite get_batch_state. split.
  - intros other Hother. destruct data_iterator as [it|]; [|done].
    destruct (default [] (iterators w !! it)); [done|].
    cbn. apply lookup_insert_ne. congruence.
  - by intros ->.
Qed.

(** X13: a record is consumed even when it cannot be used: if the
    broadcast, or the mask builder on the decoded fields, raises, then
    [get_batch] raises the same exception and the iterator has moved on to
    the next record. *)
Theorem get_batch_consumes_on_failure (it : nat) (use_local : bool) (w : World)
    (x : Sample) (rest : list Sample) (e : Exn) :
  iterators w !! it = Some (x :: rest) →
  broadcast_data batch_keys (Some x) int64 = Raise e ∨
  (∃ (data_b : gmap string Tensor)
     (text_enc text_dec labels loss_mask enc_mask dec_mask : Tensor),
     broadcast_data batch_keys (Some x) int64 = Ok data_b ∧
     has_fields data_b text_enc text_dec labels loss_mask enc_mask dec_mask ∧
     config_attention_mask text_enc text_dec
       (tensor_lt_half enc_mask) (tensor_lt_half dec_mask) use_local = Raise e) →
  get_batch (Some it) use_local w = (Raise e, advanced it rest w) ∧
  iterators (advanced it rest w) !! it = Some rest.
Proof.
  intros Hit Hfail.
  assert (Hfetch : fetches (Some it) w (Some x) (advanced it rest w)).
  { exists x, rest. by rewrite Hit. }
  split; [|apply lookup_insert_eq].
  destruct Hfail as [Hb | (data_b & te & td & lb & lm & em & dm & Hb & Hfields & Hmask)].
  - unfold get_batch.
    rewrite (bind_ok _ _ _ _ _ (fetch_run _ _ _ _ Hfetch)).
    apply bind_raise. unfold lift. unfold batch_keys in Hb. by rewrite Hb.
  - rewrite (get_batch_run _ _ _ _ _ _ _ _ _ _ _ _ Hfetch Hb Hfields).
    by rewrite Hmask.
Qed.

Lemma get_batch_decodes (it : nat) (use_local : bool) (w : World)
    (x : Sample) (rest : list Sample) (batch : Batch) :
  iterators w !! it = Some (x :: rest) →
  decodes_to (Some x) use_local batch →
  get_batch (Some it) use_local w = (Ok batch, advanced it rest w).
Proof.
  intros Hit (data_b & te & td & lb & lm & em & dm & m1 & m2 & m3 &
              Hb & Hfields & Hmask & ->).
  eapply get_batch_ok; [|exact Hb|exact Hfields|exact Hmask].
  exists x, rest. by rewrite Hit.
Qed.

(** X14: two calls of [get_batch] on the same iterator decode its next two
    records, in order, and leave the iterator after the second. *)
Theorem get_batch_twice (it : nat) (use_local : bool) (w : World)
    (x1 x2 : Sample) (rest : list Sample) (batch1 batch2 : Batch) :
  iterators w !! it = Some (x1 :: x2 :: rest) →
  decodes_to (Some x1) use_local batch1 →
  decodes_to (Some x2) use_local batch2 →
  (first ← get_batch (Some it) use_local;
   second ← get_batch (Some it) use_local;
   mret (first, second)) w =
    (Ok (batch1, batch2), advanced it rest w).
Proof.
  intros Hit H1 H2.
  rewrite (bind_ok _ _ _ _ _ (get_batch_decodes _ _ _ _ _ _ Hit H1)).
  assert (Hit2 : iterators (advanced it (x2 :: rest) w) !! it = Some (x2 :: rest))
    by apply lookup_insert_eq.
  rewrite (bind_ok _ _ _ _ _ (get_batch_decodes _ _ _ _ _ _ Hit2 H2)).
  unfold mret, M_ret, advanced. cbn [iterators events].
  by rewrite insert_insert_eq.
Qed.

End BatchDecoderMore.

(** X15: on the int64 data of the broadcast, the comparison with 0.5 marks
    exactly the entries that are zero or negative; every entry from 1 up
    is marked false. *)
Theorem tensor_lt_half_integers (t : Tensor) (b i : nat) :
  (entry (tensor_lt_half t) b i = Some true ↔ ∃ v, entry t b i = Some v ∧ v ≤ 0) ∧
  (entry (tensor_lt_half t) b i = Some false ↔ ∃ v, entry t b i = Some v ∧ 1 ≤ v).
Proof.
  rewrite entry_tensor_lt_half.
  destruct (entry t b i) as [v|]; cbn.
  - pose proof (lt_half_nonpositive v) as Hv.
    destruct (lt_half v); split; split.
    + intros _. exists v. split; [done|]. by apply Hv.
    + done.
    + discriminate.
    + intros (v' & [= <-] & Hle). assert (true = true) by done. lia.
    + discriminate.
    + intros (v' & [= <-] & Hle). apply Hv in Hle. discriminate.
    + intros _. exists v. split; [done|].
      destruct (Z.le_gt_cases v 0) as [Hle|Hgt]; [|lia].
      apply Hv in Hle. discriminate.
    + done.
  - split; split; try discriminate; by intros (v & ? & _).
Qed.

(** ** More on the forward step *)

Section ForwardStepMore.
Context {collab : Collaborators}.

(** X16: when the batch cannot be read or decoded, [forward_step] raises
    what [get_batch] raised, whatever the model is: the model is not
    called, and the batch timer has been started and not stopped. *)
Theorem forward_step_batch_failure (args : Args) (data_iterator : option nat)
    (model : ModelHandle) (w w1 : World) (e : Exn) :
  get_batch data_iterator (String.eqb (transformer_impl args) "local")
    (log (TimerStart "batch generator" (Some 2)) w) = (Raise e, w1) →
  forward_step args data_iterator model w = (Raise e, w1) ∧
  events w1 = (events w ++ [TimerStart "batch generator" (Some 2)])%list.
Proof.
  intros Hbatch. split.
  - unfold forward_step, timers_start.
    rewrite (bind_ok _ _ _ _ _ (emit_run _ _)).
    by apply bind_raise.
  - pose proof (get_batch_events data_iterator
                  (String.eqb (transformer_impl args) "local")
                  (log (TimerStart "batch generator" (Some 2)) w)) as Hev.
    by rewrite Hbatch in Hev.
Qed.

(** X17: [forward_step] raises nothing of its own: it raises [e] exactly
    when [get_batch] raises [e], or [get_batch] returns and the model,
    called on the batch after the timer is stopped, raises [e]. *)
Theorem forward_step_raises_iff (args : Args) (data_iterator : option nat)
    (model : ModelHandle) (w w' : World) (e : Exn) :
  forward_step args data_iterator model w = (Raise e, w') ↔
  get_batch data_iterator (String.eqb (transformer_impl args) "local")
    (log (TimerStart "batch generator" (Some 2)) w) = (Raise e, w') ∨
  ∃ (tokens_enc tokens_dec : Tensor) (loss_mask : list (list Float))
    (labels : Tensor) (enc_mask dec_mask enc_dec_mask : Mask) (w1 : World),
    get_batch data_iterator (String.eqb (transformer_impl args) "local")
      (log (TimerStart "batch generator" (Some 2)) w) =
      (Ok (tokens_enc, tokens_dec, loss_mask, labels, enc_mask, dec_mask, enc_dec_mask),
       w1) ∧
    model tokens_enc tokens_dec enc_mask dec_mask enc_dec_mask labels
      (log (TimerStop "batch generator") w1) = (Raise e, w').
Proof.
  unfold forward_step, timers_start, timers_stop.
  rewrite (bind_ok _ _ _ _ _ (emit_run _ _)).
  destruct (get_batch data_iterator (String.eqb (transformer_impl args) "local")
              (log (TimerStart "batch generator" (Some 2)) w))
    as [[[[[[[[te td] lm] lb] m1] m2] m3]|e1] w1] eqn:Hbatch.
  - rewrite (bind_ok _ _ _ _ _ Hbatch).
    rewrite (bind_ok _ _ _ _ _ (emit_run _ _)).
    destruct (model te td m1 m2 m3 lb (log (TimerStop "batch generator") w1))
      as [[out|e2] w2] eqn:Hmodel.
    + rewrite (bind_ok _ _ _ _ _ Hmodel). split; [discriminate|].
      intros [Hraise | (? & ? & ? & ? & ? & ? & ? & ? & Hok & Hm)]; [discriminate|].
      injection Hok as <- <- <- <- <- <- <- <-. rewrite Hmodel in Hm. discriminate.
    + rewrite (bind_raise _ _ _ _ _ Hmodel). split.
      * intros Hraise. simplify_eq. right.
        exists te, td, lm, lb, m1, m2, m3, w1. split; [reflexivity | exact Hmodel].
      * intros [Hraise | (? & ? & ? & ? & ? & ? & ? & ? & Hok & Hm)]; [discriminate|].
        injection Hok as <- <- <- <- <- <- <- <-. rewrite Hmodel in Hm.
        by injection Hm as -> ->.
  - rewrite (bind_raise _ _ _ _ _ Hbatch). split.
    + intros Hraise. injection Hraise as -> ->. by left.
    + intros [Hraise | (? & ? & ? & ? & ? & ? & ? & ? & Hok & _)]; [|discriminate].
      by injection Hraise as -> ->.
Qed.

End ForwardStepMore.

(** ** The dataset provider *)

Section DatasetProvider.
Context {collab : Collaborators} {datasets : Datasets.DatasetCollaborators}.

Lemma provider_run (args : Datasets.DataArgs) (sizes : list Z) (w : World) :
  Datasets.train_valid_test_datasets_provider args sizes w =
    let building :=
      log (PrintRank0 "> building train, validation, and test datasets for T5 ...") w in
    match Datasets.build_datasets sizes on_rank_zero (provider_config args) with
    | Ok built =>
        match unpack3 built with
        | Ok splits =>
            (Ok splits, log (PrintRank0 "> finished creating T5 datasets ...") building)
        | Raise e => (Raise e, building)
        end
    | Raise e => (Raise e, building)
    end.
Proof.
  unfold Datasets.train_valid_test_datasets_provider, print_rank_0.
  rewrite (bind_ok _ _ _ _ _ (emit_run _ _)). cbv zeta.
  change (fun r : Z => r =? 0) with on_rank_zero.
  fold (provider_config args).
  unfold mbind, M_bind, lift.
  destruct (Datasets.build_datasets sizes on_rank_zero (provider_config args))
    as [built|e]; [|reflexivity].
  destruct (unpack3 built) as [[[train valid] test]|e]; reflexivity.
Qed.

Lemma unpack3_ok {A : Type} (values : list A) (a b c : A) :
  unpack3 values = Ok (a, b, c) ↔ values = [a; b; c].
Proof.
  destruct values as [|v1 [|v2 [|v3 [|v4 values]]]]; cbn; split; intros Hv;
    by simplify_eq.
Qed.

(** X18: the provider returns exactly when the builder returns three
    datasets, and then returns them in the builder's order after logging
    its two messages; in every other case it raises after logging the
    first message only.  It never touches the data iterators. *)
Theorem provider_outcome (args : Datasets.DataArgs) (sizes : list Z) (w : World) :
  let building :=
    log (PrintRank0 "> building train, validation, and test datasets for T5 ...") w in
  let outcome := Datasets.train_valid_test_datasets_provider args sizes w in
  iterators (snd outcome) = iterators w ∧
  ((∃ train valid test,
      Datasets.build_datasets sizes on_rank_zero (provider_config args) =
        Ok [train; valid; test] ∧
      outcome =
        (Ok (train, valid, test),
         log (PrintRank0 "> finished creating T5 datasets ...") building)) ∨
   ((∀ train valid test,
       Datasets.build_datasets sizes on_rank_zero (provider_config args) ≠
         Ok [train; valid; test]) ∧
    ∃ e, outcome = (Raise e, building))).
Proof.
  cbv zeta. rewrite provider_run. cbv zeta.
  destruct (Datasets.build_datasets sizes on_rank_zero (provider_config args))
    as [built|e].
  - destruct (unpack3 built) as [[[train valid] test]|e] eqn:Hunpack.
    + apply unpack3_ok in Hunpack as ->. split; [done|]. left. by exists train, valid, test.
    + split; [done|]. right. split; [|by exists e].
      intros train valid test [= ->]. discriminate.
    - split; [done|]. right. split; [done | by exists e].
Qed.

(** X19: when the builder returns a list that does not have exactly three
    datasets, the provider raises ValueError from the unpacking, and the
    message that the datasets are finished is never logged. *)
Theorem provider_wrong_arity (args : Datasets.DataArgs) (sizes : list Z) (w : World)
    (built : list Datasets.Dataset) :
  Datasets.build_datasets sizes on_rank_zero (provider_config args) = Ok built →
  length built ≠ 3%nat →
  ∃ msg,
    Datasets.train_valid_test_datasets_provider args sizes w =
      (Raise (ValueError msg),
       log (PrintRank0 "> building train, validation, and test datasets for T5 ...") w).
Proof.
  intros Hbuilt Hlen. rewrite provider_run. cbv zeta. rewrite Hbuilt.
  destruct built as [|v1 [|v2 [|v3 [|v4 built]]]]; try done; cbn; by eexists.
Qed.

End DatasetProvider.

(** ** The further statements on the concrete instance *)

Section OnScenario.
Import Example Scenario.

Lemma get_batch_exhausted_witness :
  get_batch (Some 0%nat) true (world_of []) = (Raise StopIteration, world_of []).
Proof.
  apply (get_batch_exhausted (collab := Example.collaborators)
           0%nat true (world_of [])).
  reflexivity.
Defined.

Lemma get_batch_missing_key_witness :
  get_batch (collab := passthrough) (Some 0%nat) true
    (passthrough_world [truncated_sample]) =
    (Raise (KeyError "labels"),
     advanced (collab := passthrough) 0%nat [] (passthrough_world [truncated_sample])).
Proof.
  apply (get_batch_missing_key (collab := passthrough) (Some 0%nat) true
           (passthrough_world [truncated_sample])
           (advanced (collab := passthrough) 0%nat []
              (passthrough_world [truncated_sample]))
           (Some truncated_sample) truncated_sample
           ["text_enc"; "text_dec"] ["loss_mask"; "enc_mask"; "dec_mask"] "labels").
  - exists truncated_sample, []. split; [reflexivity | split; reflexivity].
  - reflexivity.
  - reflexivity.
  - intros k Hk. apply elem_of_cons in Hk as [->|Hk]; [by eexists|].
    apply list_elem_of_singleton in Hk as ->. by eexists.
  - reflexivity.
Defined.

Lemma get_batch_consumes_on_failure_witness :
  get_batch (Some 0%nat) true (world_of [ragged_padding_sample; sample]) =
    (Raise ShapeError,
     advanced 0%nat [sample] (world_of [ragged_padding_sample; sample])) ∧
  iterators (advanced 0%nat [sample] (world_of [ragged_padding_sample; sample]))
    !! 0%nat = Some [sample].
Proof.
  apply (get_batch_consumes_on_failure (collab := Example.collaborators)
           0%nat true (world_of [ragged_padding_sample; sample])
           ragged_padding_sample [sample] ShapeError).
  - reflexivity.
  - right.
    exists ragged_padding_sample, text_enc, text_dec, labels, loss_mask, enc_mask,
      [[0; 1]; [0; 0]].
    split; [vm_compute; reflexivity|].
    split; [repeat split; vm_compute; reflexivity|].
    vm_compute. reflexivity.
Defined.

Lemma sample_decodes :
  decodes_to (Some sample) true
    (text_enc, text_dec, float loss_mask, labels, enc_self, dec_self, enc_dec).
Proof.
  exists sample, text_enc, text_dec, labels, loss_mask, enc_mask, dec_mask,
    enc_self, dec_self, enc_dec.
  split; [vm_compute; reflexivity|].
  split; [repeat split; vm_compute; reflexivity|].
  split; [vm_compute; reflexivity | reflexivity].
Qed.

Lemma second_sample_decodes :
  decodes_to (Some second_sample) true
    (second_text_enc, second_text_dec, float second_loss_mask, second_labels,
     second_enc_self, second_dec_self, second_enc_dec).
Proof.
  exists second_sample, second_text_enc, second_text_dec, second_labels,
    second_loss_mask, [[0; 0; 0]], [[0; 0]],
    second_enc_self, second_dec_self, second_enc_dec.
  split; [vm_compute; reflexivity|].
  split; [repeat split; vm_compute; reflexivity|].
  split; [vm_compute; reflexivity | reflexivity].
Qed.

Lemma get_batch_twice_witness :
  (first ← get_batch (Some 0%nat) true;
   second ← get_batch (Some 0%nat) true;
   mret (first, second)) (world_of [sample; second_sample]) =
    (Ok ((text_enc, text_dec, float loss_mask, labels, enc_self, dec_self, enc_dec),
         (second_text_enc, second_text_dec, float second_loss_mask, second_labels,
          second_enc_self, second_dec_self, second_enc_dec)),
     advanced 0%nat [] (world_of [sample; second_sample])).
Proof.
  apply (get_batch_twice (collab := Example.collaborators) 0%nat true
           (world_of [sample; second_sample]) sample second_sample []).
  - reflexivity.
  - exact sample_decodes.
  - exact second_sample_decodes.
Defined.

Lemma forward_step_batch_failure_witness :
  forward_step local_args (Some 0%nat) model (world_of []) =
    (Raise StopIteration,
     log (TimerStart "batch generator" (Some 2)) (world_of [])) ∧
  events (log (TimerStart "batch generator" (Some 2)) (world_of [])) =
    (events (world_of []) ++ [TimerStart "batch generator" (Some 2)])%list.
Proof.
  apply (forward_step_batch_failure (collab := Example.collaborators)
           local_args (Some 0%nat) model (world_of [])
           (log (TimerStart "batch generator" (Some 2)) (world_of []))
           StopIteration).
  reflexivity.
Defined.

Lemma provider_wrong_arity_witness :
  ∃ msg,
    Datasets.train_valid_test_datasets_provider
      (datasets := datasets_returning (Ok ["train"; "valid"]))
      data_args [1000; 100; 10] (world_of []) =
      (Raise (ValueError msg),
       log (PrintRank0 "> building train, validation, and test datasets for T5 ...")
         (world_of [])).
Proof.
  apply (provider_wrong_arity (collab := Example.collaborators)
           (datasets := datasets_returning (Ok ["train"; "valid"]))
           data_args [1000; 100; 10] (world_of []) ["train"; "valid"]).
  - reflexivity.
  - cbn. lia.
Defined.

(** With three datasets the provider returns them in order. *)
Example provider_three_datasets :
  Datasets.train_valid_test_datasets_provider
    (datasets := datasets_returning (Ok ["train"; "valid"; "test"]))
    data_args [1000; 100; 10] (world_of []) =
    (Ok ("train", "valid", "test"),
     log (PrintRank0 "> finished creating T5 datasets ...")
       (log (PrintRank0 "> building train, validation, and test datasets for T5 ...")
          (world_of []))).
Proof. reflexivity. Qed.

(** On a record whose two padding indicators differ in batch dimension
    the mask builder of the specification raises ShapeError, and so does
    [get_batch]. *)
Lemma get_batch_fails_with_builder_witness :
  get_batch (Some 0%nat) true (world_of [ragged_padding_sample]) =
    (Raise ShapeError, advanced 0%nat [] (world_of [ragged_padding_sample])).
Proof.
  destruct (get_batch_fails_with_builder (collab := Example.collaborators)
              (Some 0%nat) true (world_of [ragged_padding_sample])
              (advanced 0%nat [] (world_of [ragged_padding_sample]))
              (Some ragged_padding_sample) ragged_padding_sample
              text_enc text_dec labels loss_mask enc_mask [[0; 1]; [0; 0]])
    as [Hraises _].
  - exists ragged_padding_sample, []. split; [reflexivity | split; reflexivity].
  - vm_compute. reflexivity.
  - repeat split; vm_compute; reflexivity.
  - apply Hraises. vm_compute. reflexivity.
Defined.

End OnScenario.
